(** * core-js-dates: a shallow embedding of [src/core-js-dates-tasks.js]

    The file embeds the date utilities of the repository together with the
    part of the ECMAScript [Date] semantics they rest on, and settles the
    claims of the specification against that embedding.

    Conventions.
    - A JavaScript Number that is an integer or [NaN] is an [option Z]
      ([None] is [NaN]).  Every Number handled by the embedded functions is
      a time value, a calendar field or a small counter, so it is integral
      and far below 2^53: integer arithmetic is exact.
    - A [Date] object is its [[DateValue]] slot, a time value in
      milliseconds since the epoch, or [NaN] for an Invalid Date.
    - The host's local time zone is a fixed offset [LocalTZA] from UTC
      (no daylight saving time); [Date.parse] is a host function taken as
      a parameter.
    - A function that may run for ever takes the number of invocations or
      iterations it is allowed, and answers [None] when they are used
      up. *)

From Stdlib Require Import ZArith List String Ascii Bool Lia DecimalString Sorted.
Import ListNotations.
Local Open Scope string_scope.
Local Open Scope Z_scope.
Set Warnings "-register-all".

(** ** ECMAScript time values (ECMA-262, "Date Objects") *)

Module ES.

Definition msPerSecond : Z := 1000.
Definition msPerMinute : Z := 60000.
Definition msPerHour : Z := 3600000.
Definition msPerDay : Z := 86400000.

(** The largest magnitude of a time value: 100,000,000 days. *)
Definition maxTimeValue : Z := 8640000000000000.

Definition Day (t : Z) : Z := t / msPerDay.
Definition TimeWithinDay (t : Z) : Z := t mod msPerDay.

Definition isLeap (y : Z) : bool :=
  if negb (y mod 4 =? 0) then false
  else if negb (y mod 100 =? 0) then true
  else y mod 400 =? 0.

Definition DaysInYear (y : Z) : Z := if isLeap y then 366 else 365.

Definition DayFromYear (y : Z) : Z :=
  365 * (y - 1970) + (y - 1969) / 4 - (y - 1901) / 100 + (y - 1601) / 400.

Definition TimeFromYear (y : Z) : Z := msPerDay * DayFromYear y.

(** [YearFromTime t] is "the largest integer y such that
    TimeFromYear(y) <= t".  It is computed from an estimate with the mean
    year length of 146097/400 days, which is off by at most one year. *)
Definition YearFromDay (d : Z) : Z :=
  let y := 1970 + (400 * d) / 146097 in
  if d <? DayFromYear y then y - 1
  else if DayFromYear (y + 1) <=? d then y + 1
  else y.

Definition YearFromTime (t : Z) : Z := YearFromDay (Day t).

Definition InLeapYear (t : Z) : Z :=
  if isLeap (YearFromTime t) then 1 else 0.

Definition DayWithinYear (t : Z) : Z := Day t - DayFromYear (YearFromTime t).

Definition MonthFromTime (t : Z) : Z :=
  let d := DayWithinYear t in
  let l := InLeapYear t in
  if d <? 31 then 0
  else if d <? 59 + l then 1
  else if d <? 90 + l then 2
  else if d <? 120 + l then 3
  else if d <? 151 + l then 4
  else if d <? 181 + l then 5
  else if d <? 212 + l then 6
  else if d <? 243 + l then 7
  else if d <? 273 + l then 8
  else if d <? 304 + l then 9
  else if d <? 334 + l then 10
  else 11.

Definition DateFromTime (t : Z) : Z :=
  let d := DayWithinYear t in
  let l := InLeapYear t in
  match MonthFromTime t with
  | 0 => d + 1
  | 1 => d - 30
  | 2 => d - 58 - l
  | 3 => d - 89 - l
  | 4 => d - 119 - l
  | 5 => d - 150 - l
  | 6 => d - 180 - l
  | 7 => d - 211 - l
  | 8 => d - 242 - l
  | 9 => d - 272 - l
  | 10 => d - 303 - l
  | _ => d - 333 - l
  end.

Definition WeekDay (t : Z) : Z := (Day t + 4) mod 7.

Definition HourFromTime (t : Z) : Z := (t / msPerHour) mod 24.
Definition MinFromTime (t : Z) : Z := (t / msPerMinute) mod 60.
Definition SecFromTime (t : Z) : Z := (t / msPerSecond) mod 60.

Definition MakeTime (hour min sec ms : Z) : Z :=
  hour * msPerHour + min * msPerMinute + sec * msPerSecond + ms.

(** Number of days of the year before month [mn] (0..11) starts. *)
Definition DaysBeforeMonth (leap : bool) (mn : Z) : Z :=
  let l := if leap then 1 else 0 in
  match mn with
  | 0 => 0
  | 1 => 31
  | 2 => 59 + l
  | 3 => 90 + l
  | 4 => 120 + l
  | 5 => 151 + l
  | 6 => 181 + l
  | 7 => 212 + l
  | 8 => 243 + l
  | 9 => 273 + l
  | 10 => 304 + l
  | _ => 334 + l
  end.

(** [MakeDay]: "find a time value t such that YearFromTime(t) is ym,
    MonthFromTime(t) is mn and DateFromTime(t) is 1; return
    Day(t) + dt - 1", with ym = year + floor(month / 12) and
    mn = month mod 12. *)
Definition MakeDay (year month dt : Z) : Z :=
  let ym := year + month / 12 in
  let mn := month mod 12 in
  DayFromYear ym + DaysBeforeMonth (isLeap ym) mn + dt - 1.

Definition MakeDate (day time : Z) : Z := day * msPerDay + time.

(** Two-digit years of the [Date] constructor and [Date.UTC]. *)
Definition MakeFullYear (y : Z) : Z :=
  if (0 <=? y) && (y <=? 99) then 1900 + y else y.

(** [TimeClip] turns a time outside the supported range into [NaN]. *)
Definition TimeClip (t : Z) : option Z :=
  if Z.abs t <=? maxTimeValue then Some t else None.

End ES.

Import ES.

(** ** JavaScript values *)

(** A Number that is an integer, or [NaN]. *)
Definition Number : Type := option Z.
Definition NaN : Number := None.

Definition Number_add (a b : Number) : Number :=
  match a, b with
  | Some x, Some y => Some (x + y)
  | _, _ => NaN
  end.

Definition Number_sub (a b : Number) : Number :=
  match a, b with
  | Some x, Some y => Some (x - y)
  | _, _ => NaN
  end.

(** Relational operators: every comparison with [NaN] is [false]. *)
Definition Number_lt (a b : Number) : bool :=
  match a, b with
  | Some x, Some y => x <? y
  | _, _ => false
  end.

Definition Number_le (a b : Number) : bool :=
  match a, b with
  | Some x, Some y => x <=? y
  | _, _ => false
  end.

Definition Number_gt (a b : Number) : bool := Number_lt b a.
Definition Number_ge (a b : Number) : bool := Number_le b a.

(** [===] on Numbers. *)
Definition Number_strict_eq (a b : Number) : bool :=
  match a, b with
  | Some x, Some y => x =? y
  | _, _ => false
  end.

(** [Number::toString] in radix 10, on integers below 10^21. *)
Definition Number_toString (n : Number) : string :=
  match n with
  | Some z => NilZero.string_of_int (Z.to_int z)
  | None => "NaN"
  end.

(** [a % b]: the remainder has the sign of the dividend; [NaN] when the
    divisor is zero. *)
Definition Number_rem (a b : Number) : Number :=
  match a, b with
  | Some x, Some y => if y =? 0 then NaN else Some (Z.rem x y)
  | _, _ => NaN
  end.

(** [!==] on Numbers. *)
Definition Number_strict_ne (a b : Number) : bool := negb (Number_strict_eq a b).

Inductive JsValue : Type :=
| JsUndefined
| JsNull
| JsBoolean (b : bool)
| JsNumber (n : Number)
| JsString (s : string)
| JsObject (props : list (string * JsValue)).

(** An [Error] object: its [name] and its [message]. *)
Record JsError : Type := mkJsError { error_name : string; error_message : string }.

(** [new Error(message)]. *)
Definition new_Error (message : string) : JsError := mkJsError "Error" message.

(** How a call ends: with a value, or with a thrown error. *)
Inductive Completion (A : Type) : Type :=
| Return (a : A)
| Throw (e : JsError).
Arguments Return {A} a.
Arguments Throw {A} e.

(** A [Date] object is its time value. *)
Definition JsDate : Type := Number.

(** ** [Date] objects in a host *)

Section Host.

(** Offset of local time from UTC, in milliseconds. *)
Variable LocalTZA : Z.
(** [Date.parse]: the host's parser of date strings. *)
Variable Date_parse : string -> Number.

Definition LocalTime (t : Z) : Z := t + LocalTZA.
Definition UTC (t : Z) : Z := t - LocalTZA.

(** [new Date(string)]. *)
Definition Date_of_string (s : string) : JsDate :=
  match Date_parse s with
  | Some t => TimeClip t
  | None => NaN
  end.

(** [new Date(dateObject)]. *)
Definition Date_of_Date (d : JsDate) : JsDate :=
  match d with
  | Some t => TimeClip t
  | None => NaN
  end.

(** [new Date(year, month, date)]. *)
Definition Date_of_fields (year month dt : Number) : JsDate :=
  match year, month, dt with
  | Some y, Some m, Some d =>
      TimeClip (UTC (MakeDate (MakeDay (MakeFullYear y) m d) (MakeTime 0 0 0 0)))
  | _, _, _ => NaN
  end.

Definition getDay (d : JsDate) : Number :=
  option_map (fun t => WeekDay (LocalTime t)) d.
Definition getDate (d : JsDate) : Number :=
  option_map (fun t => DateFromTime (LocalTime t)) d.
Definition getMonth (d : JsDate) : Number :=
  option_map (fun t => MonthFromTime (LocalTime t)) d.
Definition getFullYear (d : JsDate) : Number :=
  option_map (fun t => YearFromTime (LocalTime t)) d.

Definition getUTCFullYear (d : JsDate) : Number := option_map YearFromTime d.
Definition getUTCMonth (d : JsDate) : Number := option_map MonthFromTime d.
Definition getUTCDate (d : JsDate) : Number := option_map DateFromTime d.
Definition getUTCHours (d : JsDate) : Number := option_map HourFromTime d.
Definition getUTCMinutes (d : JsDate) : Number := option_map MinFromTime d.
Definition getUTCSeconds (d : JsDate) : Number := option_map SecFromTime d.

(** [d.setDate(date)]: the new time value of [d]. *)
Definition setDate (d : JsDate) (date : Number) : JsDate :=
  match d, date with
  | Some t, Some dt =>
      let t := LocalTime t in
      TimeClip (UTC (MakeDate (MakeDay (YearFromTime t) (MonthFromTime t) dt)
                              (TimeWithinDay t)))
  | _, _ => NaN
  end.

(** [d.setMonth(month)]: the new time value of [d]. *)
Definition setMonth (d : JsDate) (month : Number) : JsDate :=
  match d, month with
  | Some t, Some m =>
      let t := LocalTime t in
      TimeClip (UTC (MakeDate (MakeDay (YearFromTime t) m (DateFromTime t))
                              (TimeWithinDay t)))
  | _, _ => NaN
  end.

(** [d.setUTCDate(date)]: the new time value of [d]. *)
Definition setUTCDate (d : JsDate) (date : Number) : JsDate :=
  match d, date with
  | Some t, Some dt =>
      TimeClip (MakeDate (MakeDay (YearFromTime t) (MonthFromTime t) dt)
                         (TimeWithinDay t))
  | _, _ => NaN
  end.

(** ** The functions of [core-js-dates-tasks.js] *)

(** The array [days] of [getDayName]. *)
Definition getDayName_days : list string :=
  ["Sunday"; "Monday"; "Tuesday"; "Wensday"; "Thursday"; "Friday"; "Saturday"].

(** [days[i]]: [undefined] ([None]) unless [i] is an index of the array. *)
Definition array_get {A : Type} (a : list A) (i : Number) : option A :=
  match i with
  | Some z => if z <? 0 then None else nth_error a (Z.to_nat z)
  | None => None
  end.

Definition getDayName (date : string) : option string :=
  array_get getDayName_days (getDay (Date_of_string date)).

Definition getCountDaysInMonth (month year : Z) : Number :=
  let date := Date_of_fields (Some year) (Some (month + 1)) (Some 1) in
  let date := setUTCDate date (Some 0) in
  getUTCDate date.

Definition formatDate (date : string) : string :=
  let dateFormat := Date_of_string date in
  let year := getUTCFullYear dateFormat in
  let month := Number_add (getUTCMonth dateFormat) (Some 1) in
  let data := getUTCDate dateFormat in
  let timeDay :=
    if Number_ge (getUTCHours dateFormat) (Some 12) then "PM" else "AM" in
  let hours :=
    if Number_gt (getUTCHours dateFormat) (Some 12)
    then Number_sub (getUTCHours dateFormat) (Some 12)
    else getUTCHours dateFormat in
  let minutes :=
    if Number_lt (getUTCMinutes dateFormat) (Some 10)
    then "0" ++ Number_toString (getUTCMinutes dateFormat)
    else Number_toString (getUTCMinutes dateFormat) in
  let seconds :=
    if Number_lt (getUTCSeconds dateFormat) (Some 10)
    then "0" ++ Number_toString (getUTCSeconds dateFormat)
    else Number_toString (getUTCSeconds dateFormat) in
  Number_toString month ++ "/" ++ Number_toString data ++ "/"
    ++ Number_toString year ++ ", " ++ Number_toString hours ++ ":"
    ++ minutes ++ ":" ++ seconds ++ " " ++ timeDay.

(** [getNextFridayThe13th] calls itself without a bound, so the embedding
    takes the number of invocations it may make: [None] means that [fuel]
    invocations did not reach a [return].  [fuel = S n] allows the first
    invocation and [n] recursive calls. *)
Fixpoint getNextFridayThe13th (fuel : nat) (date : JsDate) : option JsDate :=
  match fuel with
  | O => None
  | S fuel' =>
      let dataCheck := Date_of_Date date in
      let dataCheck := setDate dataCheck (Some 13) in
      if Number_strict_eq (getDay dataCheck) (Some 5) && Number_ge dataCheck date
      then Some dataCheck
      else
        let dataCheck :=
          setMonth dataCheck (Number_add (getMonth dataCheck) (Some 1)) in
        getNextFridayThe13th fuel' dataCheck
  end.

(** *** The body of [getWorkSchedule] that the source keeps in a comment

    Lines 303-327 of the source hold, commented out, a body for
    [getWorkSchedule]; the exported function does not run it.  It is
    embedded here, on arguments of the documented types, to compare the
    exported function with it. *)

(** [s.split('-')]. *)
Fixpoint split_dash (s : string) : list string :=
  match s with
  | EmptyString => [EmptyString]
  | String c s' =>
      if Ascii.eqb c "-" then EmptyString :: split_dash s'
      else match split_dash s' with
           | [] => [String c EmptyString]
           | h :: t => String c h :: t
           end
  end.

(** [Number(s)] on the strings that are empty or made of decimal digits;
    every other string is taken to [NaN] (signs, blanks, fractions,
    exponents and radix prefixes are outside the embedding). *)
Definition Number_of_string (s : string) : Number :=
  match s with
  | EmptyString => Some 0
  | _ => option_map Z.of_uint (NilZero.uint_of_string s)
  end.

(** [const [a, b, c] = parts]: a missing element is [undefined], which the
    arithmetic and the [Date] constructor turn into [NaN]. *)
Definition destructure3 (parts : list Number) : Number * Number * Number :=
  (nth 0 parts NaN, nth 1 parts NaN, nth 2 parts NaN).

Record DatePeriod : Type := mkDatePeriod { period_start : string; period_end : string }.

(** The [for] loop of the commented body; [i] is the [Date] object that
    the loop advances in place.  [None]: [fuel] iterations did not leave
    the loop. *)
Fixpoint getWorkSchedule_commented_loop (fuel : nat) (i endDay : JsDate)
    (countWorkDays countOffDays : Number)
    (numberWorkDays numberOffDays : Z) (result : list string)
  : option (list string) :=
  match fuel with
  | O => None
  | S fuel' =>
      if Number_le i endDay then
        let '(result, numberWorkDays, numberOffDays) :=
          if Number_le (Some numberWorkDays) countWorkDays then
            let day :=
              if Number_lt (getDate i) (Some 10)
              then "0" ++ Number_toString (getDate i)
              else Number_toString (getDate i) in
            let month :=
              if Number_lt (Number_add (getMonth i) (Some 1)) (Some 10)
              then "0" ++ Number_toString (Number_add (getMonth i) (Some 1))
              else Number_toString (Number_add (getMonth i) (Some 1)) in
            let entry :=
              day ++ "-" ++ month ++ "-" ++ Number_toString (getFullYear i) in
            (app result [entry], numberWorkDays + 1, numberOffDays)
          else if Number_le (Some numberOffDays) countOffDays then
            (result, numberWorkDays, numberOffDays + 1)
          else (result, numberWorkDays, numberOffDays) in
        let '(numberWorkDays, numberOffDays) :=
          if Number_gt (Some numberOffDays) countOffDays
             && Number_gt (Some numberWorkDays) countWorkDays
          then (1, 1)
          else (numberWorkDays, numberOffDays) in
        getWorkSchedule_commented_loop fuel'
          (setDate i (Number_add (getDate i) (Some 1))) endDay
          countWorkDays countOffDays numberWorkDays numberOffDays result
      else Some result
  end.

Definition getWorkSchedule_commented (fuel : nat) (period : DatePeriod)
    (countWorkDays countOffDays : Number) : option (list string) :=
  let numberWorkDays := 1 in
  let numberOffDays := 1 in
  let '(daystart, monthstart, yearstart) :=
    destructure3 (map Number_of_string (split_dash (period_start period))) in
  let startDay :=
    Date_of_fields yearstart (Number_sub monthstart (Some 1)) daystart in
  let '(dayend, monthend, yearend) :=
    destructure3 (map Number_of_string (split_dash (period_end period))) in
  let endDay := Date_of_fields yearend (Number_sub monthend (Some 1)) dayend in
  getWorkSchedule_commented_loop fuel startDay endDay
    countWorkDays countOffDays numberWorkDays numberOffDays [].

(** *** The other functions of the file *)

(** [d.getTime()]. *)
Definition Date_getTime (d : JsDate) : Number := d.

(** [new Date(value)] on a Number. *)
Definition Date_of_number (value : Number) : JsDate :=
  match value with
  | Some t => TimeClip t
  | None => NaN
  end.

Definition getHours (d : JsDate) : Number :=
  option_map (fun t => HourFromTime (LocalTime t)) d.
Definition getMinutes (d : JsDate) : Number :=
  option_map (fun t => MinFromTime (LocalTime t)) d.
Definition getSeconds (d : JsDate) : Number :=
  option_map (fun t => SecFromTime (LocalTime t)) d.

Definition dateToTimestamp (date : string) : Number :=
  Date_getTime (Date_of_string date).

Definition getTime (date : JsDate) : string :=
  let hours :=
    if Number_ge (getHours date) (Some 10)
    then Number_toString (getHours date)
    else "0" ++ Number_toString (getHours date) in
  let minutes :=
    if Number_ge (getMinutes date) (Some 10)
    then Number_toString (getMinutes date)
    else "0" ++ Number_toString (getMinutes date) in
  let seconds :=
    if Number_ge (getSeconds date) (Some 10)
    then Number_toString (getSeconds date)
    else "0" ++ Number_toString (getSeconds date) in
  hours ++ ":" ++ minutes ++ ":" ++ seconds.

Definition getNextFriday (date : JsDate) : JsDate :=
  let initDay := Date_of_Date date in
  let dayOfWeek := getDay initDay in
  let dayDelta := Number_sub (Some 5) dayOfWeek in
  let dayDelta :=
    if Number_strict_eq dayDelta (Some (-1)) then Some 6 else dayDelta in
  let dayDelta :=
    if Number_strict_eq dayDelta (Some 0) then Some 7 else dayDelta in
  let resultDay := Number_add (getDate initDay) dayDelta in
  Date_of_number (setDate initDay resultDay).

Definition isDateInPeriod (date : string) (period : DatePeriod) : bool :=
  let start := Date_getTime (Date_of_string (period_start period)) in
  let end_ := Date_getTime (Date_of_string (period_end period)) in
  let dateCheck := Date_getTime (Date_of_string date) in
  let result := true in
  if Number_lt dateCheck start then false
  else if Number_gt dateCheck end_ then false
  else result.

(** The [for] loop of [getCountWeekendsInMonth], [n] iterations from [i]
    on: its bound [daysInMonth] does not change, so that the loop runs
    [daysInMonth] times from [i = 1], and not at all when the bound is
    [NaN]. *)
Fixpoint getCountWeekendsInMonth_loop (n : nat) (i month year : Z)
    (result : list Z) : list Z :=
  match n with
  | O => result
  | S n' =>
      let dateCheck := Date_of_fields (Some year) (Some (month - 1)) (Some i) in
      let result :=
        if Number_strict_eq (getDay dateCheck) (Some 0)
           || Number_strict_eq (getDay dateCheck) (Some 6)
        then app result [i]
        else result in
      getCountWeekendsInMonth_loop n' (i + 1) month year result
  end.

Definition getCountWeekendsInMonth (month year : Z) : Z :=
  let daysInMonth :=
    getDate (Date_of_fields (Some year) (Some month) (Some 0)) in
  let iterations :=
    match daysInMonth with
    | Some d => Z.to_nat d
    | None => O
    end in
  let result := getCountWeekendsInMonth_loop iterations 1 month year [] in
  Z.of_nat (List.length result).

Definition getQuarter (date : JsDate) : Z :=
  let month := getMonth date in
  if Number_lt month (Some 3) then 1
  else if Number_lt month (Some 6) then 2
  else if Number_lt month (Some 9) then 3
  else 4.

Definition isLeapYear (date : JsDate) : bool :=
  let year := getFullYear date in
  if Number_strict_ne (Number_rem year (Some 4)) (Some 0) then false
  else if Number_strict_ne (Number_rem year (Some 100)) (Some 0) then true
  else Number_strict_eq (Number_rem year (Some 400)) (Some 0).

End Host.

(** *** The exported [getWorkSchedule]

    A call runs in the state of the host, whatever it holds, and ends with
    a completion and the state it leaves. *)

Section Exported.

Variable World : Type.

Definition Call (A : Type) : Type := World -> Completion A * World.

(** [throw e;] *)
Definition throw {A : Type} (e : JsError) : Call A := fun w => (Throw e, w).

(** The function declares no parameter: whatever is passed is reached
    only through [arguments], which the body does not read. *)
Definition getWorkSchedule (arguments : list JsValue) : Call (list string) :=
  throw (new_Error "Not implemented").

End Exported.

Arguments throw {World A} e.
Arguments getWorkSchedule {World} arguments.

(** The period object [{ start: s, end: e }]. *)
Definition period_object (s e : string) : JsValue :=
  JsObject [("start", JsString s); ("end", JsString e)].

(** ** Reference definitions

    What the claims compare the functions with: the calendar, the English
    names of the weekdays, and the schedule as the specification words
    it. *)

Module Reference.

(** Length of calendar month [month] (1 = January .. 12 = December) of
    [year]. *)
Definition DaysInCalendarMonth (year month : Z) : Z :=
  match month with
  | 2 => if isLeap year then 29 else 28
  | 4 | 6 | 9 | 11 => 30
  | _ => 31
  end.

(** The English names of the weekdays, Sunday first. *)
Definition EnglishDayNames : list string :=
  ["Sunday"; "Monday"; "Tuesday"; "Wednesday"; "Thursday"; "Friday"; "Saturday"].

(** The specification's error kind [InvalidArgument].  JavaScript tells
    the kinds of errors apart by the [name] of the error object. *)
Definition InvalidArgument (e : JsError) : Prop :=
  error_name e = "InvalidArgument".

(** The days [first], [first + 1], ... : [n] of them. *)
Fixpoint days_from (first : Z) (n : nat) : list Z :=
  match n with
  | O => []
  | S n' => first :: days_from (first + 1) n'
  end.

(** The schedule in the specification's words: the days [d] of
    [start .. end], ascending, with
    [(d - start) mod (workLength + offLength) < workLength].
    Days are day numbers since the epoch. *)
Definition schedule (start end_ workLength offLength : Z) : list Z :=
  filter (fun d => (d - start) mod (workLength + offLength) <? workLength)
         (days_from start (Z.to_nat (end_ - start + 1))).

(** A number below 100 in two digits. *)
Definition two_digits (n : Z) : string :=
  if n <? 10 then "0" ++ Number_toString (Some n) else Number_toString (Some n).

(** A day number in the form 'DD-MM-YYYY'. *)
Definition DD_MM_YYYY (day : Z) : string :=
  let t := MakeDate day 0 in
  two_digits (DateFromTime t) ++ "-" ++ two_digits (MonthFromTime t + 1)
    ++ "-" ++ Number_toString (Some (YearFromTime t)).

(** Day number of the date [dt].[month].[year] ([month] from 1). *)
Definition day_of (dt month year : Z) : Z := MakeDay year (month - 1) dt.

(** Does a formatted date show the hour 12 before noon, "12:..:.. AM"?
    The time is what follows the comma. *)
Fixpoint after_comma (s : string) : option string :=
  match s with
  | EmptyString => None
  | String c s' => if Ascii.eqb c "," then Some s' else after_comma s'
  end.

Definition ends_with (suffix s : string) : bool :=
  String.eqb
    (substring (String.length s - String.length suffix) (String.length suffix) s)
    suffix.

Definition shows_12_AM (s : string) : bool :=
  match after_comma s with
  | Some time => String.prefix " 12:" time && ends_with " AM" time
  | None => false
  end.

End Reference.

Import Reference.

(** ** A host parser

    Every host's [Date.parse] reads the ECMAScript date-time string
    format.  [parseDateTimeString] reads its two forms 'YYYY-MM-DD' and
    'YYYY-MM-DDTHH:mm:ss.sssZ' and answers [NaN] to anything else; it
    stands for [Date.parse] where a concrete host is called for. *)

Module HostParser.

Definition digit (c : ascii) : option Z :=
  let n := nat_of_ascii c in
  if (48 <=? n)%nat && (n <=? 57)%nat then Some (Z.of_nat (n - 48)) else None.

(** Read [n] decimal digits. *)
Fixpoint digits (n : nat) (acc : Z) (s : string) : option (Z * string) :=
  match n, s with
  | O, _ => Some (acc, s)
  | S n', String c s' =>
      match digit c with
      | Some d => digits n' (10 * acc + d) s'
      | None => None
      end
  | S _, EmptyString => None
  end.

(** Read the character [c]. *)
Definition expect (c : ascii) (s : string) : option string :=
  match s with
  | String c' s' => if Ascii.eqb c c' then Some s' else None
  | EmptyString => None
  end.

Notation "' p <- e ;; k" :=
  (match e with Some p => k | None => None end)
    (at level 61, p pattern, e at next level, right associativity).

Definition parseTime (s : string) : option Z :=
  ' s <- expect "T" s ;;
  ' (h, s) <- digits 2 0 s ;;
  ' s <- expect ":" s ;;
  ' (mi, s) <- digits 2 0 s ;;
  ' s <- expect ":" s ;;
  ' (sec, s) <- digits 2 0 s ;;
  ' s <- expect "." s ;;
  ' (ms, s) <- digits 3 0 s ;;
  ' s <- expect "Z" s ;;
  match s with
  | EmptyString =>
      if (h <? 24) && (mi <? 60) && (sec <? 60)
      then Some (MakeTime h mi sec ms)
      else None
  | String _ _ => None
  end.

Definition parseDateTimeString (s : string) : Number :=
  ' (y, s) <- digits 4 0 s ;;
  ' s <- expect "-" s ;;
  ' (m, s) <- digits 2 0 s ;;
  ' s <- expect "-" s ;;
  ' (d, s) <- digits 2 0 s ;;
  if (1 <=? m) && (m <=? 12) && (1 <=? d) && (d <=? DaysInCalendarMonth y m)
  then
    match s with
    | EmptyString => Some (MakeDate (MakeDay y (m - 1) d) 0)
    | String _ _ =>
        ' time <- parseTime s ;;
        Some (MakeDate (MakeDay y (m - 1) d) time)
    end
  else None.

End HostParser.

Import HostParser.

(** ** The 13th of a month

    Months are counted from January of year 0: month [N] is month
    [N mod 12] of year [N / 12]. *)

(** Day number of the 13th of month [N]. *)
Definition day13 (N : Z) : Z := MakeDay 0 N 13.

(** Is the 13th of month [N] a Friday? *)
Definition friday13 (N : Z) : bool := (day13 N + 4) mod 7 =? 5.

(** Is the 13th of one of the [n] months from [N] on a Friday? *)
Fixpoint friday13_within (n : nat) (N : Z) : bool :=
  match n with
  | O => false
  | S n' => friday13 N || friday13_within n' (N + 1)
  end.

(** The time value of the 13th of month [N] at [time] of the day, local
    time, in a host [tza] milliseconds ahead of UTC. *)
Definition the13th (tza time N : Z) : Z := UTC tza (MakeDate (day13 N) time).

(** The time values of valid [Date] objects. *)
Definition in_range (t : Z) : Prop := - maxTimeValue <= t <= maxTimeValue.

(** ** The commented body, day by day *)

(** Local midnight of day number [day]. *)
Definition midnight (tza day : Z) : Z := UTC tza (MakeDate day 0).


(** ** Reference definitions for the other functions *)

(** Read a time 'hh:mm:ss' back. *)
Definition read_hh_mm_ss (s : string) : option (Z * Z * Z) :=
  ' (h, s) <- digits 2 0 s ;;
  ' s <- expect ":" s ;;
  ' (m, s) <- digits 2 0 s ;;
  ' s <- expect ":" s ;;
  ' (sec, s) <- digits 2 0 s ;;
  match s with
  | EmptyString => Some (h, m, sec)
  | String _ _ => None
  end.

(** Is day number [day] a Saturday or a Sunday? *)
Definition is_weekend (day : Z) : bool :=
  let weekday := (day + 4) mod 7 in
  (weekday =? 0) || (weekday =? 6).

(** The Saturdays and Sundays among the [n] days from [first] on. *)
Definition weekend_days (first : Z) (n : nat) : Z :=
  Z.of_nat (List.length (filter is_weekend (days_from first n))).

(** Is day number [day] a Friday the 13th? *)
Definition is_friday_13th (day : Z) : bool :=
  (WeekDay (MakeDate day 0) =? 5) && (DateFromTime (MakeDate day 0) =? 13).

(** The days from a date to the Friday after it, by the weekday of the
    date. *)
Definition days_to_friday (weekday : Z) : Z :=
  if weekday =? 6 then 6 else if weekday =? 5 then 7 else 5 - weekday.

(** * Properties *)

(** ** The calendar *)

Ltac zdiv := Z.div_mod_to_equations; lia.

Lemma DayFromYear_succ y : DayFromYear (y + 1) = DayFromYear y + DaysInYear y.
Proof.
  unfold DayFromYear, DaysInYear, isLeap.
  destruct (Z.eqb_spec (y mod 4) 0); destruct (Z.eqb_spec (y mod 100) 0);
    destruct (Z.eqb_spec (y mod 400) 0); cbn [negb]; zdiv.
Qed.

Lemma YearFromDay_spec d :
  DayFromYear (YearFromDay d) <= d < DayFromYear (YearFromDay d + 1).
Proof.
  unfold YearFromDay.
  destruct (Z.ltb_spec d (DayFromYear (1970 + 400 * d / 146097))).
  - unfold DayFromYear in *. zdiv.
  - destruct (Z.leb_spec (DayFromYear (1970 + 400 * d / 146097 + 1)) d).
    + unfold DayFromYear in *. zdiv.
    + lia.
Qed.

Lemma DayFromYear_mono a b : a <= b -> DayFromYear a <= DayFromYear b.
Proof. unfold DayFromYear. intros. zdiv. Qed.

Lemma YearFromDay_unique y d :
  DayFromYear y <= d < DayFromYear (y + 1) -> YearFromDay d = y.
Proof.
  intros H. pose proof (YearFromDay_spec d) as S.
  destruct (Z.lt_trichotomy (YearFromDay d) y) as [L | [E | G]]; [ | exact E | ].
  - pose proof (DayFromYear_mono (YearFromDay d + 1) y ltac:(lia)). lia.
  - pose proof (DayFromYear_mono (y + 1) (YearFromDay d) ltac:(lia)). lia.
Qed.

Lemma Day_MakeDate day time :
  0 <= time < msPerDay -> Day (MakeDate day time) = day.
Proof. unfold Day, MakeDate, msPerDay. intros. zdiv. Qed.

Lemma TimeWithinDay_MakeDate day time :
  0 <= time < msPerDay -> TimeWithinDay (MakeDate day time) = time.
Proof. unfold TimeWithinDay, MakeDate, msPerDay. intros. zdiv. Qed.

Lemma MakeDate_Day t : MakeDate (Day t) (TimeWithinDay t) = t.
Proof. unfold MakeDate, Day, TimeWithinDay, msPerDay. zdiv. Qed.

Lemma TimeWithinDay_range t : 0 <= TimeWithinDay t < msPerDay.
Proof. unfold TimeWithinDay, msPerDay. zdiv. Qed.

(** Days of year [y]: day [k] of the year belongs to year [y]. *)
Lemma YearFromDay_within y k :
  0 <= k < DaysInYear y -> YearFromDay (DayFromYear y + k) = y.
Proof.
  intros. apply YearFromDay_unique. rewrite DayFromYear_succ. lia.
Qed.

(** Successors of month indices, as literals. *)
Ltac month_succ :=
  change (0 + 1) with 1 in *; change (1 + 1) with 2 in *;
  change (2 + 1) with 3 in *; change (3 + 1) with 4 in *;
  change (4 + 1) with 5 in *; change (5 + 1) with 6 in *;
  change (6 + 1) with 7 in *; change (7 + 1) with 8 in *;
  change (8 + 1) with 9 in *; change (9 + 1) with 10 in *;
  change (10 + 1) with 11 in *; change (11 + 1) with 12 in *.

Ltac month_cases mn :=
  let C := fresh "C" in
  assert (mn = 0 \/ mn = 1 \/ mn = 2 \/ mn = 3 \/ mn = 4 \/ mn = 5 \/ mn = 6
          \/ mn = 7 \/ mn = 8 \/ mn = 9 \/ mn = 10 \/ mn = 11) as C by lia;
  destruct C as [C | [C | [C | [C | [C | [C | [C | [C | [C | [C | [C | C]]]]]]]]]]];
  subst mn; month_succ;
  unfold DaysBeforeMonth, DaysInCalendarMonth in *;
  cbv beta iota zeta in *.

Lemma DaysBeforeMonth_range y mn dt :
  0 <= mn < 12 -> 1 <= dt <= DaysInCalendarMonth y (mn + 1) ->
  0 <= DaysBeforeMonth (isLeap y) mn + dt - 1 < DaysInYear y.
Proof.
  intros Hm Hd. unfold DaysInYear.
  month_cases mn; destruct (isLeap y); lia.
Qed.

Lemma MakeDay_normal y mn dt :
  0 <= mn < 12 ->
  MakeDay y mn dt = DayFromYear y + DaysBeforeMonth (isLeap y) mn + dt - 1.
Proof.
  intros Hm. unfold MakeDay.
  replace (mn / 12) with 0 by zdiv. replace (mn mod 12) with mn by zdiv.
  rewrite Z.add_0_r. reflexivity.
Qed.

Lemma civil_roundtrip y mn dt time :
  0 <= mn < 12 -> 1 <= dt <= DaysInCalendarMonth y (mn + 1) ->
  0 <= time < msPerDay ->
  let t := MakeDate (MakeDay y mn dt) time in
  YearFromTime t = y /\ MonthFromTime t = mn /\ DateFromTime t = dt.
Proof.
  intros Hm Hd Ht t.
  assert (Day t = DayFromYear y + (DaysBeforeMonth (isLeap y) mn + dt - 1)) as HD.
  { unfold t. rewrite Day_MakeDate by assumption.
    rewrite MakeDay_normal by assumption. lia. }
  assert (YearFromTime t = y) as HY.
  { unfold YearFromTime. rewrite HD. apply YearFromDay_within.
    apply DaysBeforeMonth_range; assumption. }
  assert (DayWithinYear t = DaysBeforeMonth (isLeap y) mn + dt - 1) as HW.
  { unfold DayWithinYear. rewrite HY, HD. lia. }
  assert (InLeapYear t = if isLeap y then 1 else 0) as HL.
  { unfold InLeapYear. rewrite HY. reflexivity. }
  split; [exact HY|].
  assert (MonthFromTime t = mn) as HM.
  { unfold MonthFromTime. rewrite HW, HL. clear HD HY HW HL.
    month_cases mn; destruct (isLeap y);
    repeat match goal with
           | |- context [?a <? ?b] => destruct (Z.ltb_spec a b); try lia
           end; reflexivity. }
  split; [exact HM|].
  unfold DateFromTime. rewrite HM, HW, HL. clear HD HY HW HL HM.
  month_cases mn; destruct (isLeap y); lia.
Qed.

Lemma TimeClip_in_range t :
  - maxTimeValue <= t <= maxTimeValue -> TimeClip t = Some t.
Proof.
  intros H. unfold TimeClip.
  destruct (Z.leb_spec (Z.abs t) maxTimeValue); [reflexivity | lia].
Qed.

(** The whole of the years -271820 .. 275759 lies within the time values. *)
Lemma DayFromYear_range y :
  -271820 <= y <= 275760 -> -99999744 <= DayFromYear y <= 99999744.
Proof. unfold DayFromYear. intros. zdiv. Qed.

Lemma MakeDay_prev_month y mn :
  0 <= mn < 12 ->
  MakeDay y (mn + 1) 0 = MakeDay y mn (DaysInCalendarMonth y (mn + 1)).
Proof.
  intros Hm. destruct (Z.eq_dec mn 11) as [-> | Hne].
  - rewrite (MakeDay_normal y 11) by lia.
    unfold MakeDay. change ((11 + 1) / 12) with 1. change ((11 + 1) mod 12) with 0.
    rewrite DayFromYear_succ. unfold DaysInYear.
    cbv [DaysBeforeMonth DaysInCalendarMonth]. change (11 + 1) with 12.
    cbv beta iota zeta.
    destruct (isLeap y); destruct (isLeap (y + 1)); lia.
  - rewrite !MakeDay_normal by lia.
    month_cases mn; try lia; destruct (isLeap y); lia.
Qed.

Lemma MakeDay_norm y m dt :
  MakeDay y m dt = MakeDay (y + m / 12) (m mod 12) dt.
Proof.
  unfold MakeDay.
  replace (m mod 12 / 12) with 0 by zdiv.
  replace (m mod 12 mod 12) with (m mod 12) by zdiv.
  rewrite Z.add_0_r. reflexivity.
Qed.

Lemma DaysInCalendarMonth_range y m : 28 <= DaysInCalendarMonth y m <= 31.
Proof.
  unfold DaysInCalendarMonth.
  destruct m as [ | p | p]; try lia.
  do 4 (try destruct p as [p | p | ]); try destruct (isLeap y); lia.
Qed.

(** Inverse round trip: a day number is the [MakeDay] of its fields. *)
Lemma DayWithinYear_range t : 0 <= DayWithinYear t < DaysInYear (YearFromTime t).
Proof.
  unfold DayWithinYear, YearFromTime.
  pose proof (YearFromDay_spec (Day t)) as S.
  rewrite DayFromYear_succ in S. lia.
Qed.

Lemma MonthFromTime_range t : 0 <= MonthFromTime t < 12.
Proof.
  unfold MonthFromTime.
  repeat match goal with
         | |- context [?a <? ?b] => destruct (Z.ltb_spec a b); try lia
         end.
Qed.

Lemma fields_of_time t :
  Day t = MakeDay (YearFromTime t) (MonthFromTime t) (DateFromTime t)
  /\ 1 <= DateFromTime t
        <= DaysInCalendarMonth (YearFromTime t) (MonthFromTime t + 1).
Proof.
  pose proof (DayWithinYear_range t) as R.
  pose proof (MonthFromTime_range t) as Rm.
  rewrite MakeDay_normal by assumption.
  unfold DateFromTime.
  assert (Day t = DayFromYear (YearFromTime t) + DayWithinYear t) as ->
    by (unfold DayWithinYear; lia).
  revert R Rm. unfold MonthFromTime, InLeapYear, DaysInYear.
  set (d := DayWithinYear t). set (y := YearFromTime t). clearbody d y.
  intros R _.
  destruct (isLeap y) eqn:El;
  repeat match goal with
         | |- context [?a <? ?b] => destruct (Z.ltb_spec a b)
         end;
  month_succ; cbv [DaysBeforeMonth DaysInCalendarMonth];
  cbv beta iota zeta; rewrite ?El; lia.
Qed.

Lemma MakeDay_date y m a b : MakeDay y m (a + b) = MakeDay y m a + b.
Proof. unfold MakeDay. lia. Qed.

Lemma MakeDay_abs y m dt : MakeDay y m dt = MakeDay 0 (12 * y + m) dt.
Proof.
  unfold MakeDay.
  replace ((12 * y + m) / 12) with (y + m / 12) by zdiv.
  replace ((12 * y + m) mod 12) with (m mod 12) by zdiv.
  reflexivity.
Qed.

Lemma WeekDay_range t : 0 <= WeekDay t < 7.
Proof. unfold WeekDay. zdiv. Qed.

Lemma WeekDay_cases t :
  WeekDay t = 0 \/ WeekDay t = 1 \/ WeekDay t = 2 \/ WeekDay t = 3
  \/ WeekDay t = 4 \/ WeekDay t = 5 \/ WeekDay t = 6.
Proof. pose proof (WeekDay_range t). lia. Qed.

Lemma HourFromTime_range t : 0 <= HourFromTime t < 24.
Proof. unfold HourFromTime. zdiv. Qed.

Lemma MinFromTime_range t : 0 <= MinFromTime t < 60.
Proof. unfold MinFromTime. zdiv. Qed.

Lemma SecFromTime_range t : 0 <= SecFromTime t < 60.
Proof. unfold SecFromTime. zdiv. Qed.

(** ** [getDayName] *)

(** The example of the documentation that is in the ISO format. *)
Example getDayName_documented :
  getDayName 0 parseDateTimeString "2024-01-30T00:00:00.000Z" = Some "Tuesday".
Proof. reflexivity. Qed.

(** C8.  The table of [getDayName] differs from the English names of the
    weekdays in one entry only, the one of Wednesday: on a date that falls
    on a Wednesday (local time) [getDayName] returns 'Wensday' where
    English has 'Wednesday', and on every other weekday it returns the
    English name. *)
Theorem getDayName_Wensday
    (LocalTZA : Z) (Date_parse : string -> Number) (date : string) (t : Z) :
  Date_of_string Date_parse date = Some t ->
  let weekday := WeekDay (LocalTime LocalTZA t) in
  (weekday = 3 ->
   getDayName LocalTZA Date_parse date = Some "Wensday"
   /\ array_get EnglishDayNames (Some weekday) = Some "Wednesday")
  /\ (weekday <> 3 ->
      exists name : string,
        getDayName LocalTZA Date_parse date = Some name
        /\ array_get EnglishDayNames (Some weekday) = Some name)
  /\ (forall i : nat,
        (i < 7)%nat ->
        nth_error getDayName_days i = nth_error EnglishDayNames i <-> i <> 3%nat).
Proof.
  intros Hd weekday. unfold getDayName. rewrite Hd.
  cbn [getDay option_map]. fold weekday.
  split; [ | split].
  - intros ->. split; reflexivity.
  - intros Hne. unfold weekday in *.
    destruct (WeekDay_cases (LocalTime LocalTZA t))
      as [E | [E | [E | [E | [E | [E | E]]]]]];
      rewrite E in *; try contradiction; eexists; split; reflexivity.
  - intros i Hi.
    do 7 (destruct i as [ | i];
          [cbn; split; [intros; try discriminate | intros; try reflexivity];
           lia | ]).
    lia.
Qed.

(** 31 January 2024 is a Wednesday. *)
Lemma getDayName_Wensday_witness :
  Date_of_string parseDateTimeString "2024-01-31T00:00:00.000Z"
  = Some 1706659200000
  /\ getDayName 0 parseDateTimeString "2024-01-31T00:00:00.000Z" = Some "Wensday".
Proof.
  split; [reflexivity | ].
  apply (getDayName_Wensday 0 parseDateTimeString
           "2024-01-31T00:00:00.000Z" 1706659200000); reflexivity.
Defined.

(** ** [getCountDaysInMonth] *)

(** C9.  In a host on UTC, [getCountDaysInMonth month year] with [month]
    in 1 .. 11 is the length of calendar month [month + 1] of [year], for
    every year the host can represent except the two-digit years 0 .. 99,
    which the [Date] constructor reads as 1900 .. 1999.  In particular
    [getCountDaysInMonth 1 2024] is 29, the length of February 2024, where
    the documentation of the function promises 31, the length of
    January. *)
Theorem getCountDaysInMonth_next_month :
  (forall month year : Z,
      1 <= month <= 11 ->
      -271820 <= year <= 275759 ->
      year < 0 \/ 99 < year ->
      getCountDaysInMonth 0 month year
      = Some (DaysInCalendarMonth year (month + 1)))
  /\ getCountDaysInMonth 0 1 2024 = Some 29
  /\ DaysInCalendarMonth 2024 1 = 31.
Proof.
  split; [ | split; reflexivity ].
  intros month year Hm Hy H2.
  unfold getCountDaysInMonth, Date_of_fields, UTC.
  assert (MakeFullYear year = year) as ->.
  { unfold MakeFullYear.
    destruct (Z.leb_spec 0 year); destruct (Z.leb_spec year 99); cbn; lia. }
  change (MakeTime 0 0 0 0) with 0. rewrite Z.sub_0_r.
  set (ym := year + (month + 1) / 12). set (mn := (month + 1) mod 12).
  assert (MakeDay year (month + 1) 1 = MakeDay ym mn 1) as E1.
  { apply MakeDay_norm. }
  assert (0 <= mn < 12) as Hmn by (unfold mn; zdiv).
  assert (year <= ym <= year + 1) as Hym by (unfold ym; zdiv).
  pose proof (DaysInCalendarMonth_range ym (mn + 1)) as Hlen.
  pose proof (DayFromYear_range ym ltac:(lia)) as Hr.
  pose proof (DaysBeforeMonth_range ym mn 1 Hmn ltac:(lia)) as Hb.
  assert (DaysInYear ym <= 366) as Hdy by (unfold DaysInYear; destruct (isLeap ym); lia).
  destruct (civil_roundtrip ym mn 1 0 Hmn ltac:(lia) ltac:(unfold msPerDay; lia))
    as (HY & HM & HD).
  rewrite E1.
  rewrite TimeClip_in_range.
  2:{ rewrite MakeDay_normal by assumption.
      assert (ym = year \/ (ym = year + 1 /\ mn = 0)) as [-> | [-> ->]]
        by (unfold ym, mn; zdiv).
      - pose proof (DayFromYear_range (year + 1) ltac:(lia)) as Hr'.
        rewrite DayFromYear_succ in Hr'.
        unfold MakeDate, maxTimeValue, msPerDay. lia.
      - cbv [DaysBeforeMonth]. unfold MakeDate, maxTimeValue, msPerDay. lia. }
  unfold setUTCDate. rewrite HY, HM.
  rewrite TimeWithinDay_MakeDate by (unfold msPerDay; lia).
  replace (MakeDay ym mn 0) with (MakeDay year (month + 1) 0)
    by apply MakeDay_norm.
  rewrite MakeDay_prev_month by lia.
  pose proof (DaysInCalendarMonth_range year (month + 1)) as Hlen'.
  destruct (civil_roundtrip year month (DaysInCalendarMonth year (month + 1)) 0
              ltac:(lia) ltac:(lia) ltac:(unfold msPerDay; lia))
    as (_ & _ & HD').
  rewrite TimeClip_in_range.
  - cbn [getUTCDate option_map]. rewrite HD'. reflexivity.
  - pose proof (DaysBeforeMonth_range year month
                  (DaysInCalendarMonth year (month + 1)) ltac:(lia) ltac:(lia))
      as Hb'.
    pose proof (DayFromYear_range year ltac:(lia)) as Hr0.
    pose proof (DayFromYear_range (year + 1) ltac:(lia)) as Hr1.
    rewrite DayFromYear_succ in Hr1.
    rewrite MakeDay_normal by lia.
    unfold MakeDate, maxTimeValue, msPerDay. lia.
Qed.

(** Asked for February 2023, the function answers with March's 31 days. *)
Lemma getCountDaysInMonth_next_month_witness :
  (1 <= 2 <= 11 /\ -271820 <= 2023 <= 275759 /\ (2023 < 0 \/ 99 < 2023))
  /\ getCountDaysInMonth 0 2 2023 = Some 31.
Proof.
  split; [ lia | ].
  apply (proj1 getCountDaysInMonth_next_month 2 2023); lia.
Defined.

(** Why the years 0 .. 99 are left out: the constructor reads year 0 as
    1900, whose February has 28 days, where February of year 0 has 29. *)
Example getCountDaysInMonth_two_digit_year :
  getCountDaysInMonth 0 1 0 = Some 28 /\ DaysInCalendarMonth 0 2 = 29.
Proof. split; reflexivity. Qed.

(** Three hours east of UTC the function gives the answers of its
    documentation: there local midnight of the 1st is the evening before
    in UTC, and [setUTCDate(0)] goes back one month more. *)
Example getCountDaysInMonth_documented_east_of_UTC :
  getCountDaysInMonth (3 * msPerHour) 1 2024 = Some 31
  /\ getCountDaysInMonth (3 * msPerHour) 2 2024 = Some 29.
Proof. split; reflexivity. Qed.

(** ** [formatDate] *)

Lemma string_app_assoc (a b c : string) : (a ++ b) ++ c = a ++ (b ++ c).
Proof. induction a as [ | x a IH]; cbn; [reflexivity | rewrite IH; reflexivity]. Qed.

(** No decimal numeral holds a comma. *)
Lemma after_comma_uint d r :
  after_comma (NilEmpty.string_of_uint d ++ r) = after_comma r.
Proof. induction d; cbn; auto. Qed.

Lemma after_comma_toString n r :
  after_comma (Number_toString n ++ r) = after_comma r.
Proof.
  destruct n as [z | ]; [ | reflexivity].
  unfold Number_toString, NilZero.string_of_int.
  destruct (Z.to_int z) as [d | d]; unfold NilZero.string_of_uint.
  - destruct d; try reflexivity; apply (after_comma_uint _ r).
  - cbn [append after_comma Ascii.eqb Bool.eqb].
    destruct d; try reflexivity; apply (after_comma_uint _ r).
Qed.

Lemma two_digits_shape n :
  0 <= n < 60 -> exists a b : ascii, two_digits n = String a (String b "").
Proof.
  intros H. replace n with (Z.of_nat (Z.to_nat n)) by lia.
  assert (Z.to_nat n < 60)%nat as Hk by lia.
  revert Hk. generalize (Z.to_nat n) as k. intros k Hk.
  do 60 (destruct k as [ | k]; [eexists; eexists; reflexivity | ]).
  lia.
Qed.

Lemma formatDate_of_time Date_parse date t :
  Date_of_string Date_parse date = Some t ->
  formatDate Date_parse date
  = Number_toString (Some (MonthFromTime t + 1)) ++ "/"
      ++ Number_toString (Some (DateFromTime t)) ++ "/"
      ++ Number_toString (Some (YearFromTime t)) ++ ", "
      ++ Number_toString
           (Some (if HourFromTime t <=? 12 then HourFromTime t
                  else HourFromTime t - 12))
      ++ ":" ++ two_digits (MinFromTime t) ++ ":" ++ two_digits (SecFromTime t)
      ++ " " ++ (if HourFromTime t <? 12 then "AM" else "PM").
Proof.
  intros Hd. unfold formatDate. rewrite Hd.
  cbn [getUTCFullYear getUTCMonth getUTCDate getUTCHours getUTCMinutes
       getUTCSeconds option_map Number_add Number_sub].
  unfold Number_ge, Number_gt, Number_le, Number_lt, two_digits.
  destruct (Z.leb_spec 12 (HourFromTime t)); destruct (Z.ltb_spec 12 (HourFromTime t));
    destruct (Z.leb_spec (HourFromTime t) 12); destruct (Z.ltb_spec (HourFromTime t) 12);
    try lia; reflexivity.
Qed.

Lemma formatDate_NaN Date_parse date :
  Date_of_string Date_parse date = NaN ->
  formatDate Date_parse date = "NaN/NaN/NaN, NaN:NaN:NaN AM".
Proof. intros Hd. unfold formatDate. rewrite Hd. reflexivity. Qed.

(** The examples of the documentation. *)
Example formatDate_documented :
  formatDate parseDateTimeString "2024-02-01T15:00:00.000Z"
  = "2/1/2024, 3:00:00 PM"
  /\ formatDate parseDateTimeString "1999-01-05T02:20:00.000Z"
     = "1/5/1999, 2:20:00 AM"
  /\ formatDate parseDateTimeString "2010-12-15T22:59:00.000Z"
     = "12/15/2010, 10:59:00 PM".
Proof. repeat split. Qed.

(** What [shows_12_AM] looks for is the time a 12-hour clock shows half an
    hour after midnight. *)
Remark shows_12_AM_midnight :
  shows_12_AM "2/1/2024, 12:30:00 AM" = true
  /\ shows_12_AM "2/1/2024, 12:30:00 PM" = false
  /\ shows_12_AM "2/1/2024, 0:30:00 AM" = false.
Proof. repeat split. Qed.

(** C10.  [formatDate] writes the UTC hour [h] as [h] when [h <= 12] and
    as [h - 12] when [h > 12], followed by 'AM' when [h < 12] and by 'PM'
    when [h >= 12].  So in the hour after midnight the hour is written '0'
    with 'AM' ('2024-02-01T00:30:00.000Z' gives '2/1/2024, 0:30:00 AM'),
    and no input at all gives a time '12:..:.. AM'. *)
Theorem formatDate_hour_of_day :
  (forall (Date_parse : string -> Number) (date : string) (t : Z),
      Date_of_string Date_parse date = Some t ->
      let h := HourFromTime t in
      formatDate Date_parse date
      = Number_toString (Some (MonthFromTime t + 1)) ++ "/"
          ++ Number_toString (Some (DateFromTime t)) ++ "/"
          ++ Number_toString (Some (YearFromTime t)) ++ ", "
          ++ Number_toString (Some (if h <=? 12 then h else h - 12))
          ++ ":" ++ two_digits (MinFromTime t) ++ ":" ++ two_digits (SecFromTime t)
          ++ " " ++ (if h <? 12 then "AM" else "PM"))
  /\ (forall (Date_parse : string -> Number) (date : string) (t : Z),
         Date_of_string Date_parse date = Some t ->
         HourFromTime t = 0 ->
         exists day : string,
           formatDate Date_parse date
           = day ++ ", " ++ "0" ++ ":" ++ two_digits (MinFromTime t) ++ ":"
               ++ two_digits (SecFromTime t) ++ " " ++ "AM")
  /\ formatDate parseDateTimeString "2024-02-01T00:30:00.000Z"
     = "2/1/2024, 0:30:00 AM"
  /\ (forall (Date_parse : string -> Number) (date : string),
         shows_12_AM (formatDate Date_parse date) = false).
Proof.
  split; [ | split; [ | split] ].
  - intros Date_parse date t Hd h. apply formatDate_of_time, Hd.
  - intros Date_parse date t Hd H0.
    rewrite (formatDate_of_time Date_parse date t Hd), H0.
    cbn [Z.leb Z.ltb Z.compare].
    exists (Number_toString (Some (MonthFromTime t + 1)) ++ "/"
              ++ Number_toString (Some (DateFromTime t)) ++ "/"
              ++ Number_toString (Some (YearFromTime t))).
    rewrite !string_app_assoc. reflexivity.
  - vm_compute. reflexivity.
  - intros Date_parse date.
    destruct (Date_of_string Date_parse date) as [t | ] eqn:Hd.
    + rewrite (formatDate_of_time Date_parse date t Hd).
      unfold shows_12_AM.
      rewrite after_comma_toString. cbn [append after_comma Ascii.eqb Bool.eqb].
      rewrite after_comma_toString. cbn [append after_comma Ascii.eqb Bool.eqb].
      rewrite after_comma_toString. cbn [append after_comma Ascii.eqb Bool.eqb].
      destruct (two_digits_shape _ (MinFromTime_range t)) as (a & b & ->).
      destruct (two_digits_shape _ (SecFromTime_range t)) as (c & d & ->).
      pose proof (HourFromTime_range t) as Hh.
      replace (HourFromTime t) with (Z.of_nat (Z.to_nat (HourFromTime t))) by lia.
      assert (Z.to_nat (HourFromTime t) < 24)%nat as Hk by lia.
      revert Hk. generalize (Z.to_nat (HourFromTime t)) as k. intros k Hk.
      do 24 (destruct k as [ | k]; [vm_compute; reflexivity | ]).
      lia.
    + rewrite (formatDate_NaN Date_parse date Hd). reflexivity.
Qed.

(** Half past midnight, UTC. *)
Lemma formatDate_hour_of_day_witness :
  Date_of_string parseDateTimeString "2024-02-01T00:30:00.000Z"
  = Some 1706747400000
  /\ HourFromTime 1706747400000 = 0
  /\ exists day : string,
      formatDate parseDateTimeString "2024-02-01T00:30:00.000Z"
      = day ++ ", " ++ "0" ++ ":" ++ two_digits (MinFromTime 1706747400000) ++ ":"
          ++ two_digits (SecFromTime 1706747400000) ++ " " ++ "AM".
Proof.
  split; [reflexivity | split; [reflexivity | ] ].
  destruct formatDate_hour_of_day as (_ & H & _).
  apply H; reflexivity.
Defined.

(** ** [getNextFridayThe13th] *)

(** The examples of the documentation, [Date(2024, 0, 13)] giving
    [Date(2024, 8, 13)] and [Date(2023, 1, 1)] giving [Date(2023, 9, 13)]:
    each after 8 recursive calls. *)
Example getNextFridayThe13th_documented :
  getNextFridayThe13th 0 9 (Date_of_fields 0 (Some 2024) (Some 0) (Some 13))
  = Some (Date_of_fields 0 (Some 2024) (Some 8) (Some 13))
  /\ getNextFridayThe13th 0 8 (Date_of_fields 0 (Some 2024) (Some 0) (Some 13))
     = None
  /\ getNextFridayThe13th 0 9 (Date_of_fields 0 (Some 2023) (Some 1) (Some 1))
     = Some (Date_of_fields 0 (Some 2023) (Some 9) (Some 13))
  /\ getNextFridayThe13th 0 8 (Date_of_fields 0 (Some 2023) (Some 1) (Some 1))
     = None.
Proof. repeat split; vm_compute; reflexivity. Qed.

Lemma day13_succ N :
  day13 (N + 1) = day13 N + DaysInCalendarMonth (N / 12) (N mod 12 + 1).
Proof.
  unfold day13.
  rewrite (MakeDay_norm 0 N). rewrite Z.add_0_l.
  replace (MakeDay 0 (N + 1) 13) with (MakeDay (N / 12) (N mod 12 + 1) 13).
  2:{ rewrite (MakeDay_abs (N / 12)). f_equal. zdiv. }
  change 13 with (0 + 13) at 1. rewrite MakeDay_date.
  rewrite MakeDay_prev_month by zdiv.
  unfold MakeDay. lia.
Qed.

Lemma day13_step N : day13 N + 28 <= day13 (N + 1) <= day13 N + 31.
Proof.
  rewrite day13_succ.
  pose proof (DaysInCalendarMonth_range (N / 12) (N mod 12 + 1)). lia.
Qed.

Lemma day13_steps (k : nat) N :
  day13 N <= day13 (N + Z.of_nat k) <= day13 N + 31 * Z.of_nat k.
Proof.
  induction k as [ | k IH].
  - rewrite Z.add_0_r. lia.
  - replace (N + Z.of_nat (S k)) with (N + Z.of_nat k + 1) by lia.
    pose proof (day13_step (N + Z.of_nat k)). lia.
Qed.

(** The Gregorian calendar repeats after 400 years, which are 4800 months
    and 146097 days, a whole number of weeks. *)
Lemma DayFromYear_400 y q : DayFromYear (y + 400 * q) = DayFromYear y + 146097 * q.
Proof. unfold DayFromYear. zdiv. Qed.

Lemma isLeap_400 y q : isLeap (y + 400 * q) = isLeap y.
Proof.
  unfold isLeap.
  replace ((y + 400 * q) mod 4) with (y mod 4) by zdiv.
  replace ((y + 400 * q) mod 100) with (y mod 100) by zdiv.
  replace ((y + 400 * q) mod 400) with (y mod 400) by zdiv.
  reflexivity.
Qed.

Lemma day13_4800 N q : day13 (N + 4800 * q) = day13 N + 146097 * q.
Proof.
  unfold day13, MakeDay.
  replace ((N + 4800 * q) / 12) with (N / 12 + 400 * q) by zdiv.
  replace ((N + 4800 * q) mod 12) with (N mod 12) by zdiv.
  rewrite !Z.add_0_l, DayFromYear_400, isLeap_400. lia.
Qed.

Lemma friday13_4800 N q : friday13 (N + 4800 * q) = friday13 N.
Proof.
  unfold friday13. rewrite day13_4800.
  replace ((day13 N + 146097 * q + 4) mod 7) with ((day13 N + 4) mod 7) by zdiv.
  reflexivity.
Qed.

Lemma friday13_within_4800 n : forall N q,
  friday13_within n (N + 4800 * q) = friday13_within n N.
Proof.
  induction n as [ | n IH]; intros N q; [reflexivity | ].
  cbn [friday13_within]. rewrite friday13_4800. f_equal.
  replace (N + 4800 * q + 1) with (N + 1 + 4800 * q) by lia.
  apply IH.
Qed.

Lemma friday13_within_14_cycle :
  forallb (fun r => friday13_within 14 (Z.of_nat r)) (seq 0 4800) = true.
Proof. vm_compute. reflexivity. Qed.

(** Every run of 14 consecutive months has a Friday the 13th. *)
Lemma friday13_within_14 N : friday13_within 14 N = true.
Proof.
  replace N with (N mod 4800 + 4800 * (N / 4800)) by zdiv.
  rewrite friday13_within_4800.
  pose proof friday13_within_14_cycle as C.
  rewrite forallb_forall in C.
  replace (N mod 4800) with (Z.of_nat (Z.to_nat (N mod 4800))) by zdiv.
  apply C. apply in_seq. zdiv.
Qed.

(** Thirteen months are not enough. *)
Lemma friday13_within_13_fails : friday13_within 13 (12 * 2001 + 7) = false.
Proof. vm_compute. reflexivity. Qed.

Lemma getNextFridayThe13th_step tza fuel date :
  getNextFridayThe13th tza (S fuel) date
  = let dataCheck := setDate tza (Date_of_Date date) (Some 13) in
    if Number_strict_eq (getDay tza dataCheck) (Some 5) && Number_ge dataCheck date
    then Some dataCheck
    else getNextFridayThe13th tza fuel
           (setMonth tza dataCheck (Number_add (getMonth tza dataCheck) (Some 1))).
Proof. reflexivity. Qed.

Section Friday13.

Variable tza : Z.

(** Time of day, local. *)
Variable time : Z.
Hypothesis time_range : 0 <= time < msPerDay.

Lemma the13th_fields N :
  let t := LocalTime tza (the13th tza time N) in
  YearFromTime t = N / 12 /\ MonthFromTime t = N mod 12
  /\ DateFromTime t = 13 /\ TimeWithinDay t = time /\ Day t = day13 N.
Proof.
  intros t.
  assert (t = MakeDate (MakeDay (N / 12) (N mod 12) 13) time) as ->.
  { unfold t, the13th, LocalTime, UTC, day13.
    rewrite (MakeDay_norm 0 N), Z.add_0_l. lia. }
  pose proof (DaysInCalendarMonth_range (N / 12) (N mod 12 + 1)) as Hlen.
  destruct (civil_roundtrip (N / 12) (N mod 12) 13 time) as (HY & HM & HD);
    [ zdiv | lia | exact time_range | ].
  repeat split; try assumption.
  - apply TimeWithinDay_MakeDate, time_range.
  - rewrite Day_MakeDate by exact time_range.
    unfold day13. rewrite (MakeDay_norm 0 N), Z.add_0_l. reflexivity.
Qed.

Lemma setDate_the13th N :
  in_range (the13th tza time N) ->
  setDate tza (Date_of_Date (Some (the13th tza time N))) (Some 13)
  = Some (the13th tza time N).
Proof.
  intros R. unfold Date_of_Date. rewrite TimeClip_in_range by exact R.
  unfold setDate.
  destruct (the13th_fields N) as (HY & HM & _ & HT & _).
  rewrite HY, HM, HT.
  replace (MakeDay (N / 12) (N mod 12) 13) with (day13 N)
    by (unfold day13; rewrite (MakeDay_norm 0 N), Z.add_0_l; reflexivity).
  apply TimeClip_in_range, R.
Qed.

Lemma getDay_the13th N :
  getDay tza (Some (the13th tza time N)) = Some ((day13 N + 4) mod 7).
Proof.
  cbn [getDay option_map]. unfold WeekDay.
  destruct (the13th_fields N) as (_ & _ & _ & _ & HD). rewrite HD. reflexivity.
Qed.

Lemma getDate_the13th N : getDate tza (Some (the13th tza time N)) = Some 13.
Proof.
  cbn [getDate option_map].
  destruct (the13th_fields N) as (_ & _ & HD & _). rewrite HD. reflexivity.
Qed.

Lemma setMonth_the13th N :
  setMonth tza (Some (the13th tza time N))
           (Number_add (getMonth tza (Some (the13th tza time N))) (Some 1))
  = TimeClip (the13th tza time (N + 1)).
Proof.
  cbn [getMonth option_map Number_add]. unfold setMonth.
  destruct (the13th_fields N) as (HY & HM & HD & HT & _).
  rewrite HY, HM, HD, HT.
  replace (MakeDay (N / 12) (N mod 12 + 1) 13) with (day13 (N + 1)).
  - reflexivity.
  - unfold day13. rewrite (MakeDay_abs (N / 12)). f_equal. zdiv.
Qed.

(** The invocations after the first: from the 13th of month [N], the
    search returns the first Friday the 13th from month [N] on. *)
Lemma getNextFridayThe13th_from_the13th (n : nat) :
  forall (N : Z) (fuel : nat),
    (n <= fuel)%nat ->
    friday13_within n N = true ->
    (forall j : nat, (j < n)%nat -> in_range (the13th tza time (N + Z.of_nat j))) ->
    exists k : nat,
      (k < n)%nat /\ friday13 (N + Z.of_nat k) = true
      /\ getNextFridayThe13th tza fuel (Some (the13th tza time N))
         = Some (Some (the13th tza time (N + Z.of_nat k))).
Proof.
  induction n as [ | n IH]; intros N fuel Hfuel Hw Hr.
  - discriminate Hw.
  - destruct fuel as [ | fuel]; [lia | ].
    rewrite getNextFridayThe13th_step. cbv zeta.
    pose proof (Hr 0%nat ltac:(lia)) as R0. rewrite Z.add_0_r in R0.
    rewrite setDate_the13th by exact R0.
    rewrite getDay_the13th.
    destruct (friday13 N) eqn:F.
    + exists 0%nat. rewrite Z.add_0_r. split; [lia | split; [exact F | ] ].
      unfold friday13 in F. cbn [Number_strict_eq]. rewrite F.
      unfold Number_ge, Number_le. rewrite Z.leb_refl. reflexivity.
    + assert (Number_strict_eq (Some ((day13 N + 4) mod 7)) (Some 5) = false) as ->
        by exact F.
      cbn [andb]. rewrite setMonth_the13th.
      cbn [friday13_within] in Hw. rewrite F in Hw. cbn [orb] in Hw.
      destruct n as [ | n']; [discriminate Hw | ].
      rewrite TimeClip_in_range
        by (specialize (Hr 1%nat ltac:(lia)); exact Hr).
      destruct (IH (N + 1) fuel ltac:(lia) Hw) as (k & Hk & Fk & E).
      * intros j Hj. replace (N + 1 + Z.of_nat j) with (N + Z.of_nat (S j)) by lia.
        apply Hr. lia.
      * exists (S k). split; [lia | ].
        replace (N + Z.of_nat (S k)) with (N + 1 + Z.of_nat k) by lia.
        split; assumption.
Qed.

End Friday13.

Lemma the13th_of_fields tza t :
  let L := LocalTime tza t in
  let N := 12 * YearFromTime L + MonthFromTime L in
  day13 N = Day L - DateFromTime L + 13
  /\ 1 <= DateFromTime L <= 31
  /\ UTC tza (MakeDate (MakeDay (YearFromTime L) (MonthFromTime L) 13)
                       (TimeWithinDay L))
     = the13th tza (TimeWithinDay L) N.
Proof.
  intros L N.
  destruct (fields_of_time L) as (HD & Hd).
  pose proof (DaysInCalendarMonth_range (YearFromTime L) (MonthFromTime L + 1)).
  assert (day13 N = MakeDay (YearFromTime L) (MonthFromTime L) 13) as E
    by (unfold day13, N; rewrite <- MakeDay_abs; reflexivity).
  split; [ | split; [lia | ] ].
  - rewrite E, HD. unfold MakeDay. lia.
  - unfold the13th. rewrite E. reflexivity.
Qed.

(** C7, amended.  In a host at most a day off UTC, for every [Date] whose
    time value lies 500 days or more inside the range of time values, the
    search returns within 15 invocations, that is after at most 14
    recursive calls, and what it returns is a Friday the 13th (local time)
    not before the given date. *)
Theorem getNextFridayThe13th_within_14_calls (tza t : Z) :
  Z.abs tza <= msPerDay ->
  Z.abs t <= maxTimeValue - 500 * msPerDay ->
  exists r : Z,
    getNextFridayThe13th tza 15 (Some t) = Some (Some r)
    /\ t <= r
    /\ getDay tza (Some r) = Some 5
    /\ getDate tza (Some r) = Some 13.
Proof.
  intros Hz Ht.
  set (L := LocalTime tza t).
  set (time := TimeWithinDay L).
  set (N := 12 * YearFromTime L + MonthFromTime L).
  pose proof (TimeWithinDay_range L) as Htime. fold time in Htime.
  destruct (the13th_of_fields tza t) as (H13 & Hd & E13).
  fold L in H13, Hd, E13. fold N in H13, E13. fold time in E13.
  assert (L = MakeDate (Day L) time) as HL by (symmetry; apply MakeDate_Day).
  assert (forall j : nat, (j <= 14)%nat ->
            in_range (the13th tza time (N + Z.of_nat j))
            /\ ((1 <= j)%nat -> t <= the13th tza time (N + Z.of_nat j))) as R.
  { intros j Hj.
    pose proof (day13_steps j N) as Hs.
    assert (j = 0%nat \/ day13 (N + 1) <= day13 (N + Z.of_nat j)) as S1.
    { destruct j as [ | j]; [left; reflexivity | right].
      replace (N + Z.of_nat (S j)) with (N + 1 + Z.of_nat j) by lia.
      apply day13_steps. }
    pose proof (day13_step N) as S2.
    assert (t = L - tza) as HLt by (unfold L, LocalTime; lia).
    unfold in_range, the13th, UTC, MakeDate. unfold MakeDate in HL.
    clearbody N time. clear E13. clearbody L.
    unfold maxTimeValue, msPerDay in *. split.
    - lia.
    - intros Hj1. destruct S1 as [-> | S1]; lia. }
  change 15%nat with (S 14). rewrite getNextFridayThe13th_step. cbv zeta.
  assert (Date_of_Date (Some t) = Some t) as ->.
  { unfold Date_of_Date. apply TimeClip_in_range.
    unfold maxTimeValue, msPerDay in *. lia. }
  assert (setDate tza (Some t) (Some 13) = Some (the13th tza time N)) as ->.
  { unfold setDate. fold L. fold time. rewrite E13.
    apply TimeClip_in_range. specialize (R 0%nat ltac:(lia)).
    rewrite Z.add_0_r in R. apply R. }
  rewrite getDay_the13th by assumption.
  destruct (Number_strict_eq (Some ((day13 N + 4) mod 7)) (Some 5)
            && Number_ge (Some (the13th tza time N)) (Some t)) eqn:C.
  - apply andb_prop in C. destruct C as [C1 C2].
    exists (the13th tza time N). split; [reflexivity | ].
    cbn in C1, C2. apply Z.eqb_eq in C1. apply Z.leb_le in C2.
    split; [exact C2 | ]. split.
    + rewrite getDay_the13th by assumption. rewrite C1. reflexivity.
    + apply getDate_the13th; assumption.
  - rewrite setMonth_the13th by assumption.
    rewrite TimeClip_in_range by (apply (R 1%nat); lia).
    destruct (getNextFridayThe13th_from_the13th tza time Htime 14 (N + 1) 14)
      as (k & Hk & Fk & Ek).
    + lia.
    + apply friday13_within_14.
    + intros j Hj. replace (N + 1 + Z.of_nat j) with (N + Z.of_nat (S j)) by lia.
      apply R. lia.
    + rewrite Ek.
      exists (the13th tza time (N + 1 + Z.of_nat k)). split; [reflexivity | ].
      replace (N + 1 + Z.of_nat k) with (N + Z.of_nat (S k)) in * by lia.
      split; [apply R; lia | ]. split.
      * rewrite getDay_the13th by assumption.
        unfold friday13 in Fk. apply Z.eqb_eq in Fk. rewrite Fk. reflexivity.
      * apply getDate_the13th; assumption.
Qed.

(** From 14 July 2001, 00:00 UTC. *)
Lemma getNextFridayThe13th_within_14_calls_witness :
  (Z.abs 0 <= msPerDay /\ Z.abs 995068800000 <= maxTimeValue - 500 * msPerDay)
  /\ exists r : Z,
      getNextFridayThe13th 0 15 (Some 995068800000) = Some (Some r)
      /\ 995068800000 <= r
      /\ getDay 0 (Some r) = Some 5
      /\ getDate 0 (Some r) = Some 13.
Proof.
  split.
  - unfold msPerDay, maxTimeValue. lia.
  - apply (getNextFridayThe13th_within_14_calls 0 995068800000);
      unfold msPerDay, maxTimeValue; lia.
Defined.

(** An Invalid Date is searched for ever. *)
Lemma getNextFridayThe13th_NaN tza fuel :
  getNextFridayThe13th tza fuel NaN = None.
Proof.
  induction fuel as [ | fuel IH]; [reflexivity | ].
  rewrite getNextFridayThe13th_step. cbn. exact IH.
Qed.

(** C7 as stated fails twice.  From 14 July 2001 the next Friday the 13th
    is 13 September 2002: 13 recursive calls (14 invocations) do not reach
    it, the 14th does.  And from the last time value, 13 September 275760,
    a valid [Date], the month after is out of range: the search goes on
    with an Invalid Date and never returns. *)
Lemma getNextFridayThe13th_bound_13_fails :
  getNextFridayThe13th 0 14 (Some 995068800000) = None
  /\ getNextFridayThe13th 0 15 (Some 995068800000) = Some (Some 1031875200000)
  /\ TimeClip maxTimeValue = Some maxTimeValue
  /\ forall fuel : nat, getNextFridayThe13th 0 fuel (Some maxTimeValue) = None.
Proof.
  split; [vm_compute; reflexivity | ].
  split; [vm_compute; reflexivity | ].
  split; [reflexivity | ].
  intros [ | fuel]; [reflexivity | ].
  rewrite getNextFridayThe13th_step.
  replace (setDate 0 (Date_of_Date (Some maxTimeValue)) (Some 13))
    with (Some maxTimeValue) by (vm_compute; reflexivity).
  cbv zeta.
  replace (Number_strict_eq (getDay 0 (Some maxTimeValue)) (Some 5)) with false
    by (vm_compute; reflexivity).
  cbn [andb].
  replace (setMonth 0 (Some maxTimeValue)
             (Number_add (getMonth 0 (Some maxTimeValue)) (Some 1)))
    with NaN by (vm_compute; reflexivity).
  apply getNextFridayThe13th_NaN.
Qed.

(** ** [getWorkSchedule] *)

Lemma getWorkSchedule_commented_loop_step
    tza fuel i endDay countWorkDays countOffDays numberWorkDays numberOffDays result :
  getWorkSchedule_commented_loop tza (S fuel) i endDay countWorkDays countOffDays
    numberWorkDays numberOffDays result
  = if Number_le i endDay then
      let '(result, numberWorkDays, numberOffDays) :=
        if Number_le (Some numberWorkDays) countWorkDays then
          let day :=
            if Number_lt (getDate tza i) (Some 10)
            then "0" ++ Number_toString (getDate tza i)
            else Number_toString (getDate tza i) in
          let month :=
            if Number_lt (Number_add (getMonth tza i) (Some 1)) (Some 10)
            then "0" ++ Number_toString (Number_add (getMonth tza i) (Some 1))
            else Number_toString (Number_add (getMonth tza i) (Some 1)) in
          let entry :=
            day ++ "-" ++ month ++ "-" ++ Number_toString (getFullYear tza i) in
          (app result [entry], numberWorkDays + 1, numberOffDays)
        else if Number_le (Some numberOffDays) countOffDays then
          (result, numberWorkDays, numberOffDays + 1)
        else (result, numberWorkDays, numberOffDays) in
      let '(numberWorkDays, numberOffDays) :=
        if Number_gt (Some numberOffDays) countOffDays
           && Number_gt (Some numberWorkDays) countWorkDays
        then (1, 1)
        else (numberWorkDays, numberOffDays) in
      getWorkSchedule_commented_loop tza fuel
        (setDate tza i (Number_add (getDate tza i) (Some 1))) endDay
        countWorkDays countOffDays numberWorkDays numberOffDays result
    else Some result.
Proof. reflexivity. Qed.

Section Commented.

Variable tza : Z.

Lemma LocalTime_midnight day : LocalTime tza (midnight tza day) = MakeDate day 0.
Proof. unfold LocalTime, midnight, UTC. lia. Qed.

Lemma setDate_next_day day :
  setDate tza (Some (midnight tza day))
          (Number_add (getDate tza (Some (midnight tza day))) (Some 1))
  = TimeClip (midnight tza (day + 1)).
Proof.
  cbn [getDate option_map Number_add]. unfold setDate.
  rewrite LocalTime_midnight.
  destruct (fields_of_time (MakeDate day 0)) as (HD & _).
  rewrite MakeDay_date, <- HD.
  rewrite Day_MakeDate, TimeWithinDay_MakeDate by (unfold msPerDay; lia).
  reflexivity.
Qed.

Lemma midnight_le a b :
  Number_le (Some (midnight tza a)) (Some (midnight tza b)) = (a <=? b).
Proof.
  unfold Number_le, midnight, UTC, MakeDate, msPerDay.
  destruct (Z.leb_spec a b); [apply Z.leb_le | apply Z.leb_gt]; lia.
Qed.

Lemma getDate_midnight day :
  getDate tza (Some (midnight tza day)) = Some (DateFromTime (MakeDate day 0)).
Proof. cbn [getDate option_map]. rewrite LocalTime_midnight. reflexivity. Qed.





End Commented.

Lemma MakeFullYear_four_digits y : y < 0 \/ 99 < y -> MakeFullYear y = y.
Proof.
  intros H. unfold MakeFullYear.
  destruct (Z.leb_spec 0 y); destruct (Z.leb_spec y 99); cbn; lia.
Qed.

Lemma in_range_midnight tza day :
  Z.abs tza <= msPerDay -> -99999000 <= day <= 99999001 ->
  in_range (midnight tza day).
Proof.
  unfold in_range, midnight, UTC, MakeDate, maxTimeValue, msPerDay. lia.
Qed.



(** The schedule of the specification holds exactly the days of the range
    that are work days, in ascending order. *)
Lemma In_days_from d first n :
  In d (days_from first n) <-> first <= d < first + Z.of_nat n.
Proof.
  revert first. induction n as [ | n IH]; intros first; cbn [days_from In].
  - lia.
  - rewrite IH. lia.
Qed.

Lemma In_schedule d start end_ workLength offLength :
  In d (schedule start end_ workLength offLength)
  <-> start <= d <= end_ /\ (d - start) mod (workLength + offLength) < workLength.
Proof.
  unfold schedule. rewrite filter_In, In_days_from, Z.ltb_lt. lia.
Qed.

Lemma StronglySorted_filter (f : Z -> bool) (l : list Z) :
  StronglySorted Z.lt l -> StronglySorted Z.lt (filter f l).
Proof.
  induction 1 as [ | d l Hl IH Hd]; cbn [filter]; [constructor | ].
  destruct (f d); [ | exact IH].
  constructor; [exact IH | ].
  rewrite Forall_forall in Hd |- *.
  intros d' Hin. apply Hd. apply filter_In in Hin. apply Hin.
Qed.

Lemma StronglySorted_days_from first n : StronglySorted Z.lt (days_from first n).
Proof.
  revert first. induction n as [ | n IH]; intros first; cbn [days_from];
    constructor; [apply IH | ].
  rewrite Forall_forall. intros d' Hin. apply In_days_from in Hin. lia.
Qed.

Lemma StronglySorted_schedule start end_ workLength offLength :
  StronglySorted Z.lt (schedule start end_ workLength offLength).
Proof. apply StronglySorted_filter, StronglySorted_days_from. Qed.

(** A range whose start is after its end has no work day. *)
Lemma schedule_reversed start end_ workLength offLength :
  end_ < start -> schedule start end_ workLength offLength = [].
Proof.
  intros H. unfold schedule.
  replace (Z.to_nat (end_ - start + 1)) with 0%nat by lia. reflexivity.
Qed.

(** C4.  Whatever the arguments, and whatever the state of the host, the
    exported [getWorkSchedule] throws an [Error] with the message
    'Not implemented'; it never returns a sequence. *)
Theorem getWorkSchedule_not_implemented
    (World : Type) (arguments : list JsValue) (w : World) :
  getWorkSchedule arguments w = (Throw (mkJsError "Error" "Not implemented"), w)
  /\ forall (result : list string) (w' : World),
       getWorkSchedule arguments w <> (Return result, w').
Proof.
  split; [reflexivity | ].
  intros result w' H. discriminate H.
Qed.

(** C6.  The outcome of [getWorkSchedule] depends on no state and the call
    changes none: from any two states the outcomes are the same, and two
    calls in a row with the same arguments end the same way. *)
Theorem getWorkSchedule_deterministic
    (World : Type) (arguments : list JsValue) (w w' : World) :
  fst (getWorkSchedule arguments w) = fst (getWorkSchedule arguments w')
  /\ snd (getWorkSchedule arguments w) = w
  /\ (let (first, w1) := getWorkSchedule arguments w in
      let (second, w2) := getWorkSchedule arguments w1 in
      first = second /\ w2 = w).
Proof. repeat split. Qed.

(** C3 as stated fails.  With [workLength = 0] the error that is thrown is
    not an [InvalidArgument]; and with valid arguments an error is thrown
    all the same. *)
Lemma getWorkSchedule_workLength_0_not_InvalidArgument :
  ~ (exists e : JsError,
        fst (getWorkSchedule
               [period_object "01-01-2024" "15-01-2024";
                JsNumber (Some 0); JsNumber (Some 3)] tt) = Throw e
        /\ InvalidArgument e)
  /\ exists e : JsError,
      fst (getWorkSchedule
             [period_object "01-01-2024" "15-01-2024";
              JsNumber (Some 1); JsNumber (Some 3)] tt) = Throw e.
Proof.
  split.
  - intros (e & He & Hk). cbn in He. injection He as <-. discriminate Hk.
  - eexists. reflexivity.
Qed.

(** C3, amended.  [getWorkSchedule] validates no argument: whatever
    [workLength], [offLength] and the range are, an error it throws is not
    an [InvalidArgument]; and a call that throws returns no result,
    partial or whole. *)
Theorem getWorkSchedule_never_InvalidArgument
    (World : Type) (arguments : list JsValue) (w : World) :
  (forall (e : JsError) (w' : World),
      getWorkSchedule arguments w = (Throw e, w') -> ~ InvalidArgument e)
  /\ (forall (e : JsError) (w' : World),
         getWorkSchedule arguments w = (Throw e, w') ->
         forall (result : list string) (w'' : World),
           getWorkSchedule arguments w <> (Return result, w'')).
Proof.
  split.
  - intros e w' H. injection H as <- _. intros Hk. discriminate Hk.
  - intros e w' _ result w'' H. discriminate H.
Qed.

(** The error thrown for [workLength = 0]. *)
Lemma getWorkSchedule_never_InvalidArgument_witness :
  getWorkSchedule [JsNumber (Some 0)] tt = (Throw (new_Error "Not implemented"), tt)
  /\ ~ InvalidArgument (new_Error "Not implemented").
Proof.
  split; [reflexivity | ].
  apply (proj1 (getWorkSchedule_never_InvalidArgument unit [JsNumber (Some 0)] tt)
               (new_Error "Not implemented") tt).
  reflexivity.
Defined.

(** C1, at [{ start: '28-12-2023', end: '07-01-2024' }, 2, 1].  The
    schedule of the specification has eight days, the body kept in the
    comment returns them, and the exported function throws. *)
Theorem getWorkSchedule_throws_on_a_valid_range :
  let expected :=
    map DD_MM_YYYY (schedule (day_of 28 12 2023) (day_of 7 1 2024) 2 1) in
  expected = ["28-12-2023"; "29-12-2023"; "31-12-2023"; "01-01-2024";
              "03-01-2024"; "04-01-2024"; "06-01-2024"; "07-01-2024"]
  /\ getWorkSchedule_commented 0 12 (mkDatePeriod "28-12-2023" "07-01-2024")
       (Some 2) (Some 1) = Some expected
  /\ getWorkSchedule
       [period_object "28-12-2023" "07-01-2024"; JsNumber (Some 2); JsNumber (Some 1)]
       tt
     = (Throw (new_Error "Not implemented"), tt).
Proof. repeat split; vm_compute; reflexivity. Qed.

(** C2.  On the two examples of its documentation the exported function
    throws; the body kept in the comment returns the documented
    arrays. *)
Theorem getWorkSchedule_throws_on_the_documented_examples :
  getWorkSchedule
    [period_object "01-01-2024" "15-01-2024"; JsNumber (Some 1); JsNumber (Some 3)] tt
  = (Throw (new_Error "Not implemented"), tt)
  /\ getWorkSchedule
       [period_object "01-01-2024" "10-01-2024"; JsNumber (Some 1); JsNumber (Some 1)] tt
     = (Throw (new_Error "Not implemented"), tt)
  /\ getWorkSchedule_commented 0 16 (mkDatePeriod "01-01-2024" "15-01-2024")
       (Some 1) (Some 3)
     = Some ["01-01-2024"; "05-01-2024"; "09-01-2024"; "13-01-2024"]
  /\ getWorkSchedule_commented 0 11 (mkDatePeriod "01-01-2024" "10-01-2024")
       (Some 1) (Some 1)
     = Some ["01-01-2024"; "03-01-2024"; "05-01-2024"; "07-01-2024"; "09-01-2024"].
Proof. repeat split; vm_compute; reflexivity. Qed.

(** C5, at [{ start: '15-01-2024', end: '01-01-2024' }, 1, 3], a range
    whose start is after its end.  The schedule of the specification is
    empty, the body kept in the comment returns the empty array, and the
    exported function throws. *)
Theorem getWorkSchedule_throws_on_a_reversed_range :
  getWorkSchedule
    [period_object "15-01-2024" "01-01-2024"; JsNumber (Some 1); JsNumber (Some 3)] tt
  = (Throw (new_Error "Not implemented"), tt)
  /\ schedule (day_of 15 1 2024) (day_of 1 1 2024) 1 3 = []
  /\ getWorkSchedule_commented 0 1 (mkDatePeriod "15-01-2024" "01-01-2024")
       (Some 1) (Some 3) = Some [].
Proof. repeat split; vm_compute; reflexivity. Qed.

(** * The other functions of the file *)

(** ** [getTime] *)

(** Settle a goal about a number [n] with [0 <= n < 60] on each of the 60
    values. *)
Ltac below_60 n H :=
  replace n with (Z.of_nat (Z.to_nat n)) by lia;
  let k := fresh "k" in
  let Hk := fresh "Hk" in
  assert (Z.to_nat n < 60)%nat as Hk by lia;
  revert Hk; generalize (Z.to_nat n) as k; intros k Hk;
  do 60 (destruct k as [ | k]; [reflexivity | ]);
  lia.

(** A number below 60 as [getTime] writes it reads back as two digits. *)
Lemma digits_padded n rest :
  0 <= n < 60 ->
  digits 2 0
    ((if Number_ge (Some n) (Some 10)
      then Number_toString (Some n)
      else "0" ++ Number_toString (Some n)) ++ rest)
  = Some (n, rest).
Proof. intros H. below_60 n H. Qed.

Lemma digits_padded_end n :
  0 <= n < 60 ->
  digits 2 0
    (if Number_ge (Some n) (Some 10)
     then Number_toString (Some n)
     else "0" ++ Number_toString (Some n))
  = Some (n, "").
Proof. intros H. below_60 n H. Qed.

Lemma length_padded n :
  0 <= n < 60 ->
  String.length
    (if Number_ge (Some n) (Some 10)
     then Number_toString (Some n)
     else "0" ++ Number_toString (Some n)) = 2%nat.
Proof. intros H. below_60 n H. Qed.

Lemma string_length_app (a b : string) :
  String.length (a ++ b) = (String.length a + String.length b)%nat.
Proof.
  induction a as [ | c a IH]; cbn; [reflexivity | rewrite IH; reflexivity].
Qed.

(** X1.  The text that [getTime] gives for a valid [Date] has eight
    characters, and read as 'hh:mm:ss' it gives back the hours, minutes
    and seconds of the date in local time.  For an Invalid Date the text
    is '0NaN:0NaN:0NaN', which is no time: no comparison with [NaN] holds,
    so each part is taken for a number below 10 and gets a leading
    zero. *)
Theorem getTime_reads_back (LocalTZA : Z) (date : JsDate) :
  match date with
  | Some t =>
      String.length (getTime LocalTZA date) = 8%nat
      /\ read_hh_mm_ss (getTime LocalTZA date)
         = Some (HourFromTime (LocalTime LocalTZA t),
                 MinFromTime (LocalTime LocalTZA t),
                 SecFromTime (LocalTime LocalTZA t))
  | None =>
      getTime LocalTZA date = "0NaN:0NaN:0NaN"
      /\ read_hh_mm_ss (getTime LocalTZA date) = None
  end.
Proof.
  destruct date as [t | ]; [ | split; reflexivity].
  unfold getTime. cbn [getHours getMinutes getSeconds option_map].
  set (L := LocalTime LocalTZA t).
  pose proof (HourFromTime_range L) as Hh.
  pose proof (MinFromTime_range L) as Hm.
  pose proof (SecFromTime_range L) as Hs.
  split.
  - rewrite !string_length_app, !length_padded by lia. reflexivity.
  - unfold read_hh_mm_ss.
    rewrite digits_padded by lia.
    cbn [append expect Ascii.eqb Bool.eqb].
    rewrite digits_padded by lia.
    cbn [append expect Ascii.eqb Bool.eqb].
    rewrite digits_padded_end by lia.
    reflexivity.
Qed.

(** ** [getNextFriday] *)

(** [setDate] to the day of the month plus [k] moves a date by [k] days. *)
Lemma setDate_plus_days tza t k :
  setDate tza (Some t) (Number_add (getDate tza (Some t)) (Some k))
  = TimeClip (t + k * msPerDay).
Proof.
  cbn [getDate option_map Number_add]. unfold setDate.
  set (L := LocalTime tza t).
  destruct (fields_of_time L) as (HD & _).
  rewrite MakeDay_date, <- HD. f_equal.
  pose proof (MakeDate_Day L) as E.
  unfold UTC, MakeDate in *. unfold L, LocalTime in *. lia.
Qed.

Lemma getNextFriday_days tza t :
  Z.abs t <= maxTimeValue ->
  getNextFriday tza (Some t)
  = Date_of_number
      (TimeClip (t + days_to_friday (WeekDay (LocalTime tza t)) * msPerDay)).
Proof.
  intros Ht. unfold getNextFriday, Date_of_Date.
  rewrite TimeClip_in_range by lia.
  cbv zeta. cbn [getDay option_map Number_sub].
  set (w := WeekDay (LocalTime tza t)).
  assert (0 <= w < 7) as Hw by apply WeekDay_range.
  unfold Number_strict_eq, days_to_friday.
  destruct (Z.eqb_spec (5 - w) (-1)) as [E1 | E1].
  - destruct (Z.eqb_spec 6 0); [lia | ].
    destruct (Z.eqb_spec w 6); [ | lia].
    rewrite setDate_plus_days. reflexivity.
  - destruct (Z.eqb_spec w 6); [lia | ].
    destruct (Z.eqb_spec (5 - w) 0); destruct (Z.eqb_spec w 5); try lia;
      rewrite setDate_plus_days; reflexivity.
Qed.

Lemma WeekDay_plus_days L k :
  WeekDay (L + k * msPerDay) = (WeekDay L + k) mod 7.
Proof. unfold WeekDay, Day, msPerDay. zdiv. Qed.

(** X2.  For a [Date] at least seven days before the last time value,
    [getNextFriday] gives the same time of day on the first Friday after
    the day of the date: a Friday (local time) [k] whole days later with
    [1 <= k <= 7], none of the days in between being a Friday.  On a
    Friday it gives the Friday a week later. *)
Theorem getNextFriday_first_Friday_after (LocalTZA t : Z) :
  - maxTimeValue <= t <= maxTimeValue - 7 * msPerDay ->
  exists k : Z,
    1 <= k <= 7
    /\ getNextFriday LocalTZA (Some t) = Some (t + k * msPerDay)
    /\ getDay LocalTZA (Some (t + k * msPerDay)) = Some 5
    /\ (forall j : Z,
          1 <= j < k -> getDay LocalTZA (Some (t + j * msPerDay)) <> Some 5)
    /\ (getDay LocalTZA (Some t) = Some 5 -> k = 7).
Proof.
  intros Ht.
  set (w := WeekDay (LocalTime LocalTZA t)).
  assert (0 <= w < 7) as Hw by apply WeekDay_range.
  exists (days_to_friday w).
  assert (1 <= days_to_friday w <= 7) as Hk.
  { unfold days_to_friday.
    destruct (Z.eqb_spec w 6); destruct (Z.eqb_spec w 5); lia. }
  assert (forall j, getDay LocalTZA (Some (t + j * msPerDay))
                    = Some ((w + j) mod 7)) as Hday.
  { intros j. cbn [getDay option_map]. f_equal.
    replace (LocalTime LocalTZA (t + j * msPerDay))
      with (LocalTime LocalTZA t + j * msPerDay) by (unfold LocalTime; lia).
    apply WeekDay_plus_days. }
  split; [exact Hk | ].
  split.
  { rewrite getNextFriday_days by (unfold maxTimeValue, msPerDay in *; lia).
    fold w. unfold Date_of_number.
    rewrite !TimeClip_in_range; [reflexivity | | ];
      unfold maxTimeValue, msPerDay in *; lia. }
  split.
  { rewrite Hday. f_equal. unfold days_to_friday.
    destruct (Z.eqb_spec w 6); destruct (Z.eqb_spec w 5); zdiv. }
  split.
  { intros j Hj. rewrite Hday. intros E. injection E as E.
    revert Hj. unfold days_to_friday.
    destruct (Z.eqb_spec w 6); destruct (Z.eqb_spec w 5); intros Hj; zdiv. }
  intros E. cbn [getDay option_map] in E. fold w in E. injection E as E.
  unfold days_to_friday.
  destruct (Z.eqb_spec w 6); destruct (Z.eqb_spec w 5); lia.
Qed.

Lemma getNextFriday_first_Friday_after_witness :
  - maxTimeValue <= 1706918400000 <= maxTimeValue - 7 * msPerDay
  /\ exists k : Z,
      1 <= k <= 7
      /\ getNextFriday 0 (Some 1706918400000) = Some (1706918400000 + k * msPerDay)
      /\ getDay 0 (Some (1706918400000 + k * msPerDay)) = Some 5
      /\ (forall j : Z,
            1 <= j < k ->
            getDay 0 (Some (1706918400000 + j * msPerDay)) <> Some 5)
      /\ (getDay 0 (Some 1706918400000) = Some 5 -> k = 7).
Proof.
  split.
  - unfold maxTimeValue, msPerDay. lia.
  - apply (getNextFriday_first_Friday_after 0 1706918400000).
    unfold maxTimeValue, msPerDay. lia.
Defined.



(** X4.  Where the Friday after would be past the last time value, and for
    an Invalid Date, [getNextFriday] gives an Invalid Date. *)
Theorem getNextFriday_Invalid_Date (LocalTZA t : Z) :
  getNextFriday LocalTZA NaN = NaN
  /\ (maxTimeValue - msPerDay < t <= maxTimeValue ->
      getNextFriday LocalTZA (Some t) = NaN).
Proof.
  split; [reflexivity | ].
  intros Ht.
  rewrite getNextFriday_days by (unfold maxTimeValue, msPerDay in *; lia).
  set (w := WeekDay (LocalTime LocalTZA t)).
  assert (1 <= days_to_friday w <= 7) as Hk.
  { pose proof (WeekDay_range (LocalTime LocalTZA t)) as Hw. fold w in Hw.
    unfold days_to_friday.
    destruct (Z.eqb_spec w 6); destruct (Z.eqb_spec w 5); lia. }
  unfold TimeClip.
  destruct (Z.leb_spec (Z.abs (t + days_to_friday w * msPerDay)) maxTimeValue);
    [ | reflexivity].
  unfold maxTimeValue, msPerDay in *. lia.
Qed.

Lemma getNextFriday_Invalid_Date_witness :
  maxTimeValue - msPerDay < maxTimeValue <= maxTimeValue
  /\ getNextFriday 0 (Some maxTimeValue) = NaN.
Proof.
  split.
  - unfold maxTimeValue, msPerDay. lia.
  - apply (getNextFriday_Invalid_Date 0 maxTimeValue).
    unfold maxTimeValue, msPerDay. lia.
Defined.

(** ** [isDateInPeriod] *)

(** X5.  When the date and both ends of the period are valid,
    [isDateInPeriod] holds exactly when the time value of the date lies
    between those of the ends, both included. *)
Theorem isDateInPeriod_between
    (Date_parse : string -> Number) (date : string) (period : DatePeriod)
    (t start end_ : Z) :
  dateToTimestamp Date_parse date = Some t ->
  dateToTimestamp Date_parse (period_start period) = Some start ->
  dateToTimestamp Date_parse (period_end period) = Some end_ ->
  isDateInPeriod Date_parse date period = true <-> start <= t <= end_.
Proof.
  unfold dateToTimestamp, isDateInPeriod, Date_getTime.
  intros -> -> ->. unfold Number_gt, Number_lt.
  destruct (Z.ltb_spec t start); destruct (Z.ltb_spec end_ t);
    split; intros H1; try discriminate; try reflexivity; lia.
Qed.

Lemma isDateInPeriod_between_witness :
  dateToTimestamp parseDateTimeString "2024-02-10" = Some 1707523200000
  /\ dateToTimestamp parseDateTimeString "2024-02-02" = Some 1706832000000
  /\ dateToTimestamp parseDateTimeString "2024-03-02" = Some 1709337600000
  /\ (isDateInPeriod parseDateTimeString "2024-02-10"
        (mkDatePeriod "2024-02-02" "2024-03-02") = true
      <-> 1706832000000 <= 1707523200000 <= 1709337600000).
Proof.
  split; [reflexivity | ]. split; [reflexivity | ]. split; [reflexivity | ].
  apply (isDateInPeriod_between parseDateTimeString "2024-02-10"
           (mkDatePeriod "2024-02-02" "2024-03-02")); reflexivity.
Defined.

(** X6.  A date that is not valid is in every period: no comparison with
    [NaN] holds, so that neither test of the function rejects it.  In the
    same way an end of the period that is not valid is no bound at
    all. *)
Theorem isDateInPeriod_Invalid_Date
    (Date_parse : string -> Number) (date : string) (period : DatePeriod) :
  (dateToTimestamp Date_parse date = NaN ->
   isDateInPeriod Date_parse date period = true)
  /\ (dateToTimestamp Date_parse (period_start period) = NaN ->
      dateToTimestamp Date_parse (period_end period) = NaN ->
      isDateInPeriod Date_parse date period = true).
Proof.
  unfold dateToTimestamp, isDateInPeriod, Date_getTime. split.
  - intros ->. unfold Number_gt, Number_lt.
    destruct (Date_of_string Date_parse (period_start period));
      destruct (Date_of_string Date_parse (period_end period)); reflexivity.
  - intros -> ->. unfold Number_gt, Number_lt.
    destruct (Date_of_string Date_parse date); reflexivity.
Qed.

Lemma isDateInPeriod_Invalid_Date_witness :
  dateToTimestamp parseDateTimeString "tomorrow" = NaN
  /\ isDateInPeriod parseDateTimeString "tomorrow"
       (mkDatePeriod "2024-02-02" "2024-03-02") = true.
Proof.
  split; [reflexivity | ].
  apply (proj1 (isDateInPeriod_Invalid_Date parseDateTimeString "tomorrow"
                  (mkDatePeriod "2024-02-02" "2024-03-02"))).
  reflexivity.
Defined.

(** ** [getCountWeekendsInMonth] *)

(** The days of a year the host can represent are valid dates at local
    midnight. *)
Lemma in_range_midnight_of_year tza y day :
  Z.abs tza <= msPerDay -> -271820 <= y <= 275759 ->
  DayFromYear y <= day < DayFromYear (y + 1) ->
  in_range (midnight tza day).
Proof.
  intros Hz Hy Hd.
  pose proof (DayFromYear_range y ltac:(lia)).
  pose proof (DayFromYear_range (y + 1) ltac:(lia)).
  unfold in_range, midnight, UTC, MakeDate, maxTimeValue, msPerDay in *. lia.
Qed.

Lemma MakeDay_in_year y mn dt :
  0 <= mn < 12 -> 1 <= dt <= DaysInCalendarMonth y (mn + 1) ->
  DayFromYear y <= MakeDay y mn dt < DayFromYear (y + 1).
Proof.
  intros Hm Hd. rewrite MakeDay_normal, DayFromYear_succ by assumption.
  pose proof (DaysBeforeMonth_range y mn dt Hm Hd). lia.
Qed.

(** [new Date(year, mn, dt)] on a day of the calendar. *)
Lemma Date_of_fields_day tza y mn dt :
  Z.abs tza <= msPerDay -> -271820 <= y <= 275759 -> y < 0 \/ 99 < y ->
  0 <= mn < 12 -> 1 <= dt <= DaysInCalendarMonth y (mn + 1) ->
  Date_of_fields tza (Some y) (Some mn) (Some dt)
  = Some (midnight tza (MakeDay y mn dt)).
Proof.
  intros Hz Hy H2 Hm Hd. unfold Date_of_fields.
  rewrite MakeFullYear_four_digits by assumption.
  change (MakeTime 0 0 0 0) with 0. fold (midnight tza (MakeDay y mn dt)).
  apply TimeClip_in_range.
  apply (in_range_midnight_of_year tza y); try assumption.
  apply MakeDay_in_year; assumption.
Qed.

Lemma getDay_midnight tza day :
  getDay tza (Some (midnight tza day)) = Some ((day + 4) mod 7).
Proof.
  cbn [getDay option_map]. rewrite LocalTime_midnight. unfold WeekDay.
  rewrite Day_MakeDate by (unfold msPerDay; lia). reflexivity.
Qed.

Lemma is_weekend_getDay tza day :
  Number_strict_eq (getDay tza (Some (midnight tza day))) (Some 0)
  || Number_strict_eq (getDay tza (Some (midnight tza day))) (Some 6)
  = is_weekend day.
Proof. rewrite getDay_midnight. reflexivity. Qed.

Lemma getCountWeekendsInMonth_loop_filter tza month year :
  Z.abs tza <= msPerDay -> -271820 <= year <= 275759 ->
  year < 0 \/ 99 < year -> 1 <= month <= 12 ->
  forall (n : nat) (i : Z) (result : list Z),
    1 <= i -> i + Z.of_nat n <= DaysInCalendarMonth year month + 1 ->
    getCountWeekendsInMonth_loop tza n i month year result
    = (result ++
         filter (fun j => is_weekend (MakeDay year (month - 1) j))
                (days_from i n))%list.
Proof.
  intros Hz Hy H2 Hm.
  induction n as [ | n IH]; intros i result Hi Hn.
  - cbn. rewrite app_nil_r. reflexivity.
  - cbn [getCountWeekendsInMonth_loop days_from filter].
    rewrite Date_of_fields_day; try assumption; try lia.
    2:{ replace (month - 1 + 1) with month by lia. lia. }
    rewrite is_weekend_getDay.
    rewrite IH by lia.
    destruct (is_weekend (MakeDay year (month - 1) i)).
    + rewrite <- app_assoc. reflexivity.
    + reflexivity.
Qed.

Lemma filter_days_shift (first i : Z) (n : nat) :
  List.length (filter (fun j => is_weekend (first + j)) (days_from i n))
  = List.length (filter is_weekend (days_from (first + i) n)).
Proof.
  revert i. induction n as [ | n IH]; intros i; [reflexivity | ].
  cbn [days_from filter].
  replace (first + i + 1) with (first + (i + 1)) by lia.
  destruct (is_weekend (first + i)); cbn [List.length]; rewrite IH; reflexivity.
Qed.

Lemma is_weekend_week day q : is_weekend (day + 7 * q) = is_weekend day.
Proof.
  unfold is_weekend.
  replace ((day + 7 * q + 4) mod 7) with ((day + 4) mod 7) by zdiv.
  reflexivity.
Qed.

Lemma weekend_days_week (n : nat) : forall first q,
  weekend_days (first + 7 * q) n = weekend_days first n.
Proof.
  unfold weekend_days.
  induction n as [ | n IH]; intros first q; [reflexivity | ].
  cbn [days_from filter]. rewrite is_weekend_week.
  replace (first + 7 * q + 1) with (first + 1 + 7 * q) by lia.
  specialize (IH (first + 1) q).
  destruct (is_weekend first); cbn [List.length]; lia.
Qed.

(** A month has 8, 9 or 10 days of weekend. *)
Lemma weekend_days_of_month first len :
  28 <= len <= 31 -> 8 <= weekend_days first (Z.to_nat len) <= 10.
Proof.
  intros Hlen.
  replace first with (first mod 7 + 7 * (first / 7)) by zdiv.
  rewrite weekend_days_week.
  assert (0 <= first mod 7 < 7) as Hr by zdiv.
  assert (len = 28 \/ len = 29 \/ len = 30 \/ len = 31) as Hl by lia.
  assert (first mod 7 = 0 \/ first mod 7 = 1 \/ first mod 7 = 2
          \/ first mod 7 = 3 \/ first mod 7 = 4 \/ first mod 7 = 5
          \/ first mod 7 = 6) as Hf by lia.
  destruct Hl as [-> | [-> | [-> | ->]]];
    destruct Hf as [-> | [-> | [-> | [-> | [-> | [-> | ->]]]]]];
    vm_compute; split; discriminate.
Qed.

(** X7.  For a month 1 .. 12 of a year of four digits or more, in a host
    at most a day off UTC, [getCountWeekendsInMonth] is the number of
    Saturdays and Sundays among the days of that calendar month, and it
    is 8, 9 or 10. *)
Theorem getCountWeekendsInMonth_counts_weekend_days (LocalTZA month year : Z) :
  Z.abs LocalTZA <= msPerDay ->
  1 <= month <= 12 ->
  -271820 <= year <= 275759 ->
  year < 0 \/ 99 < year ->
  getCountWeekendsInMonth LocalTZA month year
  = weekend_days (day_of 1 month year)
                 (Z.to_nat (DaysInCalendarMonth year month))
  /\ 8 <= getCountWeekendsInMonth LocalTZA month year <= 10.
Proof.
  intros Hz Hm Hy H2.
  pose proof (DaysInCalendarMonth_range year month) as Hlen.
  assert (getCountWeekendsInMonth LocalTZA month year
          = weekend_days (day_of 1 month year)
                         (Z.to_nat (DaysInCalendarMonth year month))) as E.
  { unfold getCountWeekendsInMonth.
    assert (Date_of_fields LocalTZA (Some year) (Some month) (Some 0)
            = Some (midnight LocalTZA
                      (MakeDay year (month - 1)
                               (DaysInCalendarMonth year month)))) as ->.
    { unfold Date_of_fields.
      rewrite MakeFullYear_four_digits by assumption.
      change (MakeTime 0 0 0 0) with 0.
      replace (MakeDay year month 0)
        with (MakeDay year (month - 1) (DaysInCalendarMonth year month)).
      - fold (midnight LocalTZA
                (MakeDay year (month - 1) (DaysInCalendarMonth year month))).
        apply TimeClip_in_range.
        apply (in_range_midnight_of_year LocalTZA year); try assumption.
        apply MakeDay_in_year; [lia | ].
        replace (month - 1 + 1) with month by lia. lia.
      - replace month with (month - 1 + 1) at 3 by lia.
        rewrite MakeDay_prev_month by lia.
        replace (month - 1 + 1) with month by lia. reflexivity. }
    rewrite getDate_midnight.
    destruct (civil_roundtrip year (month - 1) (DaysInCalendarMonth year month) 0)
      as (_ & _ & HD); try lia.
    { replace (month - 1 + 1) with month by lia. lia. }
    { unfold msPerDay. lia. }
    rewrite HD.
    rewrite getCountWeekendsInMonth_loop_filter; try assumption; try lia.
    cbn [app]. unfold weekend_days, day_of. f_equal.
    replace (MakeDay year (month - 1) 1) with (MakeDay year (month - 1) 0 + 1)
      by (unfold MakeDay; lia).
    rewrite <- filter_days_shift.
    f_equal. apply filter_ext. intros j. f_equal. unfold MakeDay. lia. }
  split; [exact E | ].
  rewrite E. apply weekend_days_of_month. exact Hlen.
Qed.

Lemma getCountWeekendsInMonth_counts_weekend_days_witness :
  (Z.abs 0 <= msPerDay /\ 1 <= 5 <= 12 /\ -271820 <= 2022 <= 275759
   /\ (2022 < 0 \/ 99 < 2022))
  /\ getCountWeekendsInMonth 0 5 2022
     = weekend_days (day_of 1 5 2022) (Z.to_nat (DaysInCalendarMonth 2022 5))
  /\ 8 <= getCountWeekendsInMonth 0 5 2022 <= 10.
Proof.
  split.
  - unfold msPerDay. lia.
  - apply (getCountWeekendsInMonth_counts_weekend_days 0 5 2022);
      unfold msPerDay; lia.
Defined.

(** ** [getQuarter] *)

(** X8.  For a valid [Date] the quarter [q] that [getQuarter] gives is one
    of 1 .. 4 and holds the month of the date: [3 (q - 1) <= month < 3 q],
    months counted from 0.  For an Invalid Date it gives 4: no comparison
    with [NaN] holds. *)
Theorem getQuarter_of_month (LocalTZA : Z) (date : JsDate) :
  match date with
  | Some t =>
      let q := getQuarter LocalTZA date in
      let month := MonthFromTime (LocalTime LocalTZA t) in
      1 <= q <= 4 /\ 3 * (q - 1) <= month < 3 * q
  | None => getQuarter LocalTZA date = 4
  end.
Proof.
  destruct date as [t | ]; [ | reflexivity].
  unfold getQuarter. cbn [getMonth option_map Number_lt].
  pose proof (MonthFromTime_range (LocalTime LocalTZA t)) as Hm.
  cbv zeta.
  destruct (Z.ltb_spec (MonthFromTime (LocalTime LocalTZA t)) 3); [lia | ].
  destruct (Z.ltb_spec (MonthFromTime (LocalTime LocalTZA t)) 6); [lia | ].
  destruct (Z.ltb_spec (MonthFromTime (LocalTime LocalTZA t)) 9); lia.
Qed.

(** ** [isLeapYear] *)

Lemma rem_zero_mod (y d : Z) : 0 < d -> (Z.rem y d =? 0) = (y mod d =? 0).
Proof.
  intros Hd.
  destruct (Z.eqb_spec (Z.rem y d) 0) as [E | E];
    destruct (Z.eqb_spec (y mod d) 0) as [E' | E']; try reflexivity; exfalso.
  - apply E'. apply Z.rem_divide in E; [ | lia].
    apply Z.mod_divide; [lia | exact E].
  - apply E. apply Z.mod_divide in E'; [ | lia].
    apply Z.rem_divide; [lia | exact E'].
Qed.

Lemma isLeapYear_isLeap tza t :
  isLeapYear tza (Some t) = isLeap (YearFromTime (LocalTime tza t)).
Proof.
  unfold isLeapYear, isLeap, Number_strict_ne.
  cbn [getFullYear option_map Number_rem Number_strict_eq Z.eqb].
  rewrite !rem_zero_mod by lia. reflexivity.
Qed.

(** X9.  For a valid [Date], [isLeapYear] holds exactly when the year of
    the date (local time) has 366 days in the calendar of the host, that
    is when the first day of the next year comes 366 days after the first
    day of the year; years before the year 0 are no exception, although
    the remainder [%] of a negative year is negative.  For an Invalid Date
    [isLeapYear] is false. *)
Theorem isLeapYear_366_days (LocalTZA : Z) (date : JsDate) :
  match date with
  | Some t =>
      let year := YearFromTime (LocalTime LocalTZA t) in
      isLeapYear LocalTZA date = true
      <-> DayFromYear (year + 1) - DayFromYear year = 366
  | None => isLeapYear LocalTZA date = false
  end.
Proof.
  destruct date as [t | ]; [ | reflexivity].
  cbv zeta. rewrite isLeapYear_isLeap, DayFromYear_succ. unfold DaysInYear.
  destruct (isLeap (YearFromTime (LocalTime LocalTZA t))); split; intros H;
    try reflexivity; try discriminate; lia.
Qed.

(** ** [getCountDaysInMonth], in every host *)

Lemma MakeDay_prev_month_norm year m :
  MakeDay year (m + 1) 0
  = MakeDay (year + m / 12) (m mod 12)
            (DaysInCalendarMonth (year + m / 12) (m mod 12 + 1)).
Proof.
  rewrite <- MakeDay_prev_month by zdiv.
  rewrite (MakeDay_abs year), (MakeDay_abs (year + m / 12)).
  f_equal. zdiv.
Qed.

Lemma in_range_day y mn dt time :
  -271820 <= y <= 275759 -> 0 <= mn < 12 ->
  1 <= dt <= DaysInCalendarMonth y (mn + 1) -> 0 <= time < msPerDay ->
  - maxTimeValue <= MakeDate (MakeDay y mn dt) time <= maxTimeValue.
Proof.
  intros Hy Hm Hd Ht.
  pose proof (MakeDay_in_year y mn dt Hm Hd).
  pose proof (DayFromYear_range y ltac:(lia)).
  pose proof (DayFromYear_range (y + 1) ltac:(lia)).
  unfold MakeDate, maxTimeValue, msPerDay in *. lia.
Qed.

(** [setUTCDate(0)] then [getUTCDate()], on a day [dt] of the month after
    month [m] of [year]: the length of month [m]. *)
Lemma getUTCDate_setUTCDate_0 year m dt time :
  -271820 <= year + m / 12 <= 275759 ->
  -271820 <= year + (m + 1) / 12 <= 275759 ->
  1 <= dt <= DaysInCalendarMonth (year + (m + 1) / 12) ((m + 1) mod 12 + 1) ->
  0 <= time < msPerDay ->
  getUTCDate (setUTCDate (Some (MakeDate (MakeDay year (m + 1) dt) time)) (Some 0))
  = Some (DaysInCalendarMonth (year + m / 12) (m mod 12 + 1)).
Proof.
  intros Hy Hy1 Hd Ht.
  rewrite (MakeDay_norm year (m + 1)).
  set (Y1 := year + (m + 1) / 12) in *. set (M1 := (m + 1) mod 12) in *.
  assert (0 <= M1 < 12) as HM1 by (unfold M1; zdiv).
  destruct (civil_roundtrip Y1 M1 dt time HM1 Hd Ht) as (HY & HM & _).
  unfold setUTCDate. rewrite HY, HM.
  rewrite TimeWithinDay_MakeDate by assumption.
  replace (MakeDay Y1 M1 0) with (MakeDay year (m + 1) 0)
    by apply MakeDay_norm.
  rewrite MakeDay_prev_month_norm.
  set (Y := year + m / 12) in *. set (M := m mod 12) in *.
  assert (0 <= M < 12) as HM0 by (unfold M; zdiv).
  pose proof (DaysInCalendarMonth_range Y (M + 1)) as Hlen.
  rewrite TimeClip_in_range by (apply in_range_day; lia).
  cbn [getUTCDate option_map].
  destruct (civil_roundtrip Y M (DaysInCalendarMonth Y (M + 1)) time)
    as (_ & _ & HD); try assumption; try lia.
  rewrite HD. reflexivity.
Qed.

(** X10.  In a host east of UTC, by a day at most, [getCountDaysInMonth]
    is right: for a month 1 .. 12 of a year of four digits or more it is
    the length of that calendar month.  There local midnight of the 1st
    is still the day before in UTC, which makes up for the month that the
    function counts too far. *)
Theorem getCountDaysInMonth_east_of_UTC (LocalTZA month year : Z) :
  0 < LocalTZA <= msPerDay ->
  1 <= month <= 12 ->
  -271820 <= year <= 275758 ->
  year < 0 \/ 99 < year ->
  getCountDaysInMonth LocalTZA month year
  = Some (DaysInCalendarMonth year month).
Proof.
  intros Hz Hm Hy H2.
  unfold getCountDaysInMonth, Date_of_fields, UTC.
  rewrite MakeFullYear_four_digits by assumption.
  change (MakeTime 0 0 0 0) with 0.
  pose proof (MakeDay_prev_month_norm year month) as E.
  set (Y := year + month / 12) in *. set (M := month mod 12) in *.
  assert (0 <= M < 12) as HM by (unfold M; zdiv).
  assert (year <= Y <= year + 1) as HY by (unfold Y; zdiv).
  pose proof (DaysInCalendarMonth_range Y (M + 1)) as Hlen.
  replace (MakeDate (MakeDay year (month + 1) 1) 0 - LocalTZA)
    with (MakeDate (MakeDay year (month + 1) 0) (msPerDay - LocalTZA))
    by (unfold MakeDate, MakeDay; lia).
  rewrite E.
  rewrite TimeClip_in_range by (apply in_range_day; lia).
  replace (MakeDay Y M (DaysInCalendarMonth Y (M + 1)))
    with (MakeDay year (month - 1 + 1) (DaysInCalendarMonth Y (M + 1))).
  2:{ replace (month - 1 + 1) with month by lia. apply MakeDay_norm. }
  assert ((month - 1) / 12 = 0 /\ (month - 1) mod 12 = month - 1) as [Q R]
    by zdiv.
  rewrite getUTCDate_setUTCDate_0.
  - rewrite Q, R, Z.add_0_r. replace (month - 1 + 1) with month by lia.
    reflexivity.
  - rewrite Q. lia.
  - replace (month - 1 + 1) with month by lia. fold Y. lia.
  - replace (month - 1 + 1) with month by lia. fold Y. fold M. lia.
  - lia.
Qed.

Lemma getCountDaysInMonth_east_of_UTC_witness :
  (0 < 3 * msPerHour <= msPerDay /\ 1 <= 2 <= 12
   /\ -271820 <= 2024 <= 275758 /\ (2024 < 0 \/ 99 < 2024))
  /\ getCountDaysInMonth (3 * msPerHour) 2 2024 = Some 29.
Proof.
  split.
  - unfold msPerHour, msPerDay. lia.
  - apply (getCountDaysInMonth_east_of_UTC (3 * msPerHour) 2 2024);
      unfold msPerHour, msPerDay; lia.
Defined.

(** X11.  In a host on UTC or west of it, by less than a day,
    [getCountDaysInMonth] is one month off: for a month 1 .. 12 it is the
    length of the month after.  For December that is January of the next
    year, so that the 31 it gives is right by chance. *)
Theorem getCountDaysInMonth_west_of_UTC (LocalTZA month year : Z) :
  - msPerDay < LocalTZA <= 0 ->
  1 <= month <= 12 ->
  -271820 <= year <= 275758 ->
  year < 0 \/ 99 < year ->
  getCountDaysInMonth LocalTZA month year
  = Some (DaysInCalendarMonth (year + month / 12) (month mod 12 + 1))
  /\ (month = 12 -> getCountDaysInMonth LocalTZA month year = Some 31).
Proof.
  intros Hz Hm Hy H2.
  assert (getCountDaysInMonth LocalTZA month year
          = Some (DaysInCalendarMonth (year + month / 12) (month mod 12 + 1)))
    as E.
  { unfold getCountDaysInMonth, Date_of_fields, UTC.
    rewrite MakeFullYear_four_digits by assumption.
    change (MakeTime 0 0 0 0) with 0.
    replace (MakeDate (MakeDay year (month + 1) 1) 0 - LocalTZA)
      with (MakeDate (MakeDay year (month + 1) 1) (- LocalTZA))
      by (unfold MakeDate; lia).
    assert (year <= year + (month + 1) / 12 <= year + 1) as HY1 by zdiv.
    assert (year <= year + month / 12 <= year + 1) as HY by zdiv.
    pose proof (DaysInCalendarMonth_range (year + (month + 1) / 12)
                  ((month + 1) mod 12 + 1)) as Hlen.
    rewrite TimeClip_in_range.
    - apply getUTCDate_setUTCDate_0; lia.
    - rewrite (MakeDay_norm year (month + 1)).
      apply in_range_day; try lia. zdiv. }
  split; [exact E | ].
  intros ->. rewrite E. reflexivity.
Qed.

Lemma getCountDaysInMonth_west_of_UTC_witness :
  (- msPerDay < - (5 * msPerHour) <= 0 /\ 1 <= 12 <= 12
   /\ -271820 <= 2024 <= 275758 /\ (2024 < 0 \/ 99 < 2024))
  /\ getCountDaysInMonth (- (5 * msPerHour)) 12 2024
     = Some (DaysInCalendarMonth (2024 + 12 / 12) (12 mod 12 + 1))
  /\ (12 = 12 -> getCountDaysInMonth (- (5 * msPerHour)) 12 2024 = Some 31).
Proof.
  split.
  - unfold msPerHour, msPerDay. lia.
  - apply (getCountDaysInMonth_west_of_UTC (- (5 * msPerHour)) 12 2024);
      unfold msPerHour, msPerDay; lia.
Defined.

(** ** [getNextFridayThe13th]: the Friday the 13th it gives is the next *)

Lemma first_friday13 (n : nat) : forall N,
  friday13_within n N = true ->
  exists k : nat,
    (k < n)%nat /\ friday13 (N + Z.of_nat k) = true
    /\ forall j : nat, (j < k)%nat -> friday13 (N + Z.of_nat j) = false.
Proof.
  induction n as [ | n IH]; intros N H; [discriminate H | ].
  cbn [friday13_within] in H.
  destruct (friday13 N) eqn:F.
  - exists 0%nat. rewrite Z.add_0_r. repeat split; [lia | exact F | lia].
  - cbn [orb] in H. destruct (IH (N + 1) H) as (k & Hk & Fk & Hj).
    exists (S k). split; [lia | ]. split.
    + replace (N + Z.of_nat (S k)) with (N + 1 + Z.of_nat k) by lia. exact Fk.
    + intros [ | j] Hlt.
      * rewrite Z.add_0_r. exact F.
      * replace (N + Z.of_nat (S j)) with (N + 1 + Z.of_nat j) by lia.
        apply Hj. lia.
Qed.

Lemma friday13_within_of_friday13 (k : nat) : forall N,
  friday13 (N + Z.of_nat k) = true -> friday13_within (S k) N = true.
Proof.
  induction k as [ | k IH]; intros N F.
  - cbn [friday13_within]. rewrite Z.add_0_r in F. rewrite F. reflexivity.
  - change (friday13_within (S (S k)) N)
      with (friday13 N || friday13_within (S k) (N + 1)).
    rewrite (IH (N + 1)); [apply orb_true_r | ].
    replace (N + 1 + Z.of_nat k) with (N + Z.of_nat (S k)) by lia. exact F.
Qed.

Lemma day13_lt N N' : N < N' -> day13 N < day13 N'.
Proof.
  intros H.
  replace N' with (N + 1 + Z.of_nat (Z.to_nat (N' - N - 1))) by lia.
  pose proof (day13_steps (Z.to_nat (N' - N - 1)) (N + 1)).
  pose proof (day13_step N). lia.
Qed.

(** A day that is a Friday the 13th is the 13th of some month, a Friday. *)
Lemma is_friday_13th_month day :
  is_friday_13th day = true ->
  exists N, day = day13 N /\ friday13 N = true.
Proof.
  unfold is_friday_13th. intros H. apply andb_prop in H. destruct H as [HW HD].
  apply Z.eqb_eq in HW, HD.
  destruct (fields_of_time (MakeDate day 0)) as (E & _).
  rewrite HD, Day_MakeDate in E by (unfold msPerDay; lia).
  exists (12 * YearFromTime (MakeDate day 0) + MonthFromTime (MakeDate day 0)).
  assert (day = day13 (12 * YearFromTime (MakeDate day 0)
                       + MonthFromTime (MakeDate day 0))) as E'
    by (unfold day13; rewrite <- MakeDay_abs; exact E).
  split; [exact E' | ].
  unfold friday13. rewrite <- E'.
  unfold WeekDay in HW. rewrite Day_MakeDate in HW by (unfold msPerDay; lia).
  apply Z.eqb_eq. exact HW.
Qed.

Lemma is_friday_13th_day13 N :
  friday13 N = true -> is_friday_13th (day13 N) = true.
Proof.
  intros F. unfold is_friday_13th.
  destruct (the13th_fields 0 0 ltac:(unfold msPerDay; lia) N)
    as (_ & _ & HD & _ & _).
  assert (LocalTime 0 (the13th 0 0 N) = MakeDate (day13 N) 0) as E
    by (unfold LocalTime, the13th, UTC; lia).
  rewrite E in HD. rewrite HD.
  unfold WeekDay. rewrite Day_MakeDate by (unfold msPerDay; lia).
  unfold friday13 in F. rewrite F. reflexivity.
Qed.

(** X12.  Under the conditions of the bound of 14 recursive calls, what
    [getNextFridayThe13th] returns is the next Friday the 13th: the same
    time of day on a day that is a Friday the 13th (local time), on or
    after the day of the date, with no Friday the 13th among the days
    from the date to the day before. *)
Theorem getNextFridayThe13th_is_the_next (LocalTZA t : Z) :
  Z.abs LocalTZA <= msPerDay ->
  Z.abs t <= maxTimeValue - 500 * msPerDay ->
  exists r : Z,
    getNextFridayThe13th LocalTZA 15 (Some t) = Some (Some r)
    /\ TimeWithinDay (LocalTime LocalTZA r) = TimeWithinDay (LocalTime LocalTZA t)
    /\ is_friday_13th (Day (LocalTime LocalTZA r)) = true
    /\ Day (LocalTime LocalTZA t) <= Day (LocalTime LocalTZA r)
    /\ forall day : Z,
         Day (LocalTime LocalTZA t) <= day < Day (LocalTime LocalTZA r) ->
         is_friday_13th day = false.
Proof.
  intros Hz Ht. rename LocalTZA into tza.
  set (L := LocalTime tza t).
  set (time := TimeWithinDay L).
  set (N := 12 * YearFromTime L + MonthFromTime L).
  pose proof (TimeWithinDay_range L) as Htime. fold time in Htime.
  destruct (the13th_of_fields tza t) as (H13 & Hd & E13).
  fold L in H13, Hd, E13. fold N in H13, E13. fold time in E13.
  assert (L = MakeDate (Day L) time) as HL by (symmetry; apply MakeDate_Day).
  assert (forall j : nat, (j <= 14)%nat ->
            in_range (the13th tza time (N + Z.of_nat j))) as R.
  { intros j Hj.
    pose proof (day13_steps j N) as Hs.
    assert (t = L - tza) as HLt by (unfold L, LocalTime; lia).
    unfold in_range, the13th, UTC, MakeDate. unfold MakeDate in HL.
    clearbody N time. clear E13. clearbody L.
    unfold maxTimeValue, msPerDay in *. lia. }
  (* the result, whatever the month [N + K] it falls in *)
  assert (forall K : nat,
            (K <= 14)%nat -> friday13 (N + Z.of_nat K) = true ->
            Day L <= day13 (N + Z.of_nat K) ->
            (forall N', N <= N' < N + Z.of_nat K -> friday13 N' = true ->
                        day13 N' < Day L) ->
            let r := the13th tza time (N + Z.of_nat K) in
            TimeWithinDay (LocalTime tza r) = TimeWithinDay L
            /\ is_friday_13th (Day (LocalTime tza r)) = true
            /\ Day L <= Day (LocalTime tza r)
            /\ forall day, Day L <= day < Day (LocalTime tza r) ->
                           is_friday_13th day = false) as Final.
  { intros K HK FK HLK Hmin r.
    destruct (the13th_fields tza time Htime (N + Z.of_nat K))
      as (_ & _ & _ & HT & HDay).
    fold r in HT, HDay. rewrite HT, HDay.
    split; [reflexivity | ].
    split; [apply is_friday_13th_day13, FK | ].
    split; [exact HLK | ].
    intros day Hday.
    destruct (is_friday_13th day) eqn:F; [exfalso | reflexivity].
    destruct (is_friday_13th_month day F) as (N' & -> & F').
    assert (N' < N + Z.of_nat K) as Hlt.
    { destruct (Z.lt_ge_cases N' (N + Z.of_nat K)) as [Hlt | Hge]; [exact Hlt | ].
      exfalso. destruct (Z.eq_dec N' (N + Z.of_nat K)) as [-> | Hne]; [lia | ].
      pose proof (day13_lt (N + Z.of_nat K) N' ltac:(lia)). lia. }
    assert (N <= N') as Hge.
    { destruct (Z.lt_ge_cases N' N) as [Hlt' | Hge]; [exfalso | exact Hge].
      pose proof (day13_step (N - 1)) as S1.
      replace (N - 1 + 1) with N in S1 by lia.
      destruct (Z.eq_dec N' (N - 1)) as [-> | Hne]; [lia | ].
      pose proof (day13_lt N' (N - 1) ltac:(lia)). lia. }
    specialize (Hmin N' ltac:(lia) F'). lia. }
  change 15%nat with (S 14). rewrite getNextFridayThe13th_step. cbv zeta.
  assert (Date_of_Date (Some t) = Some t) as ->.
  { unfold Date_of_Date. apply TimeClip_in_range.
    unfold maxTimeValue, msPerDay in *. lia. }
  assert (setDate tza (Some t) (Some 13) = Some (the13th tza time N)) as ->.
  { unfold setDate. fold L. fold time. rewrite E13.
    apply TimeClip_in_range. specialize (R 0%nat ltac:(lia)).
    rewrite Z.add_0_r in R. apply R. }
  rewrite getDay_the13th by assumption.
  assert (Number_ge (Some (the13th tza time N)) (Some t) = (Day L <=? day13 N))
    as Hge.
  { assert (t = L - tza) as HLt by (unfold L, LocalTime; lia).
    unfold Number_ge, Number_le, the13th, UTC, MakeDate. unfold MakeDate in HL.
    clearbody N time. clear E13 Final R. clearbody L.
    unfold msPerDay in *.
    destruct (Z.leb_spec (Day L) (day13 N)); [apply Z.leb_le | apply Z.leb_gt]; lia. }
  rewrite Hge. change (Number_strict_eq (Some ((day13 N + 4) mod 7)) (Some 5))
    with (friday13 N).
  destruct (friday13 N && (Day L <=? day13 N)) eqn:C.
  - apply andb_prop in C. destruct C as [C1 C2]. apply Z.leb_le in C2.
    exists (the13th tza time N). split; [reflexivity | ].
    specialize (Final 0%nat ltac:(lia)). rewrite Z.add_0_r in Final.
    apply Final; try assumption. intros N' HN'. lia.
  - rewrite setMonth_the13th by assumption.
    rewrite TimeClip_in_range by (apply (R 1%nat); lia).
    destruct (first_friday13 14 (N + 1) (friday13_within_14 (N + 1)))
      as (k0 & Hk0 & Fk0 & Hfirst).
    destruct (getNextFridayThe13th_from_the13th tza time Htime (S k0) (N + 1) 14)
      as (k & Hk & Fk & Ek).
    + lia.
    + apply friday13_within_of_friday13, Fk0.
    + intros j Hj. replace (N + 1 + Z.of_nat j) with (N + Z.of_nat (S j)) by lia.
      apply R. lia.
    + assert (k = k0) as ->.
      { destruct (Nat.eq_dec k k0) as [E | E]; [exact E | exfalso].
        rewrite (Hfirst k ltac:(lia)) in Fk. discriminate Fk. }
      rewrite Ek. exists (the13th tza time (N + 1 + Z.of_nat k0)).
      split; [reflexivity | ].
      replace (N + 1 + Z.of_nat k0) with (N + Z.of_nat (S k0)) in * by lia.
      apply Final; try lia; try assumption.
      * pose proof (day13_steps k0 (N + 1)) as S1.
        replace (N + 1 + Z.of_nat k0) with (N + Z.of_nat (S k0)) in S1 by lia.
        pose proof (day13_step N). lia.
      * intros N' HN' F'.
        destruct (Z.eq_dec N' N) as [-> | Hne].
        -- rewrite F' in C. cbn [andb] in C. apply Z.leb_gt in C. exact C.
        -- exfalso.
           specialize (Hfirst (Z.to_nat (N' - N - 1)) ltac:(lia)).
           replace (N + 1 + Z.of_nat (Z.to_nat (N' - N - 1))) with N' in Hfirst
             by lia.
           rewrite F' in Hfirst. discriminate Hfirst.
Qed.

Lemma getNextFridayThe13th_is_the_next_witness :
  (Z.abs 0 <= msPerDay /\ Z.abs 995068800000 <= maxTimeValue - 500 * msPerDay)
  /\ exists r : Z,
      getNextFridayThe13th 0 15 (Some 995068800000) = Some (Some r)
      /\ TimeWithinDay (LocalTime 0 r) = TimeWithinDay (LocalTime 0 995068800000)
      /\ is_friday_13th (Day (LocalTime 0 r)) = true
      /\ Day (LocalTime 0 995068800000) <= Day (LocalTime 0 r)
      /\ forall day : Z,
           Day (LocalTime 0 995068800000) <= day < Day (LocalTime 0 r) ->
           is_friday_13th day = false.
Proof.
  split.
  - unfold msPerDay, maxTimeValue. lia.
  - apply (getNextFridayThe13th_is_the_next 0 995068800000);
      unfold msPerDay, maxTimeValue; lia.
Defined.

(** X13.  From an Invalid Date [getNextFridayThe13th] never returns,
    however many recursive calls it is given: every date it builds is
    invalid again, and no comparison with [NaN] holds. *)
Theorem getNextFridayThe13th_Invalid_Date_never_returns
    (LocalTZA : Z) (fuel : nat) (date : JsDate) :
  Date_of_Date date = NaN ->
  getNextFridayThe13th LocalTZA fuel date = None.
Proof.
  intros H. destruct fuel as [ | fuel]; [reflexivity | ].
  rewrite getNextFridayThe13th_step, H. cbn.
  apply getNextFridayThe13th_NaN.
Qed.

Lemma getNextFridayThe13th_Invalid_Date_never_returns_witness :
  Date_of_Date NaN = NaN /\ getNextFridayThe13th 0 1000 NaN = None.
Proof.
  split; [reflexivity | ].
  apply (getNextFridayThe13th_Invalid_Date_never_returns 0 1000 NaN).
  reflexivity.
Defined.

(** ** [getDayName] and [formatDate] on dates that are not valid *)

(** X14.  [getDayName] gives [undefined] exactly when the date is not
    valid; for a valid date it gives one of the seven entries of its
    table. *)
Theorem getDayName_undefined
    (LocalTZA : Z) (Date_parse : string -> Number) (date : string) :
  (getDayName LocalTZA Date_parse date = None
   <-> Date_of_string Date_parse date = NaN)
  /\ forall name : string,
       getDayName LocalTZA Date_parse date = Some name ->
       In name getDayName_days.
Proof.
  unfold getDayName.
  destruct (Date_of_string Date_parse date) as [t | ].
  - cbn [getDay option_map].
    destruct (WeekDay_cases (LocalTime LocalTZA t))
      as [E | [E | [E | [E | [E | [E | E]]]]]];
      rewrite E; cbn; (split; [split; intros H; discriminate H | ]);
      intros name H; injection H as <-; tauto.
  - split; [split; reflexivity | ]. intros name H. discriminate H.
Qed.

Lemma getDayName_undefined_witness :
  getDayName 0 parseDateTimeString "2024-01-30T00:00:00.000Z" = Some "Tuesday"
  /\ In "Tuesday" getDayName_days.
Proof.
  split; [reflexivity | ].
  apply (proj2 (getDayName_undefined 0 parseDateTimeString
                  "2024-01-30T00:00:00.000Z")).
  reflexivity.
Defined.

(** The month of a date is written with a digit first. *)
Lemma month_not_NaN n rest rest' :
  1 <= n <= 12 -> Number_toString (Some n) ++ rest <> "N" ++ rest'.
Proof.
  intros H E.
  assert (n = 1 \/ n = 2 \/ n = 3 \/ n = 4 \/ n = 5 \/ n = 6 \/ n = 7
          \/ n = 8 \/ n = 9 \/ n = 10 \/ n = 11 \/ n = 12) as C by lia.
  destruct C as [-> | [-> | [-> | [-> | [-> | [-> | [-> | [-> | [-> | [-> |
                [-> | ->]]]]]]]]]]]; discriminate E.
Qed.

(** X15.  [formatDate] gives the text 'NaN/NaN/NaN, NaN:NaN:NaN AM'
    exactly when the date is not valid: it does not fail on such a date,
    and it gives that text for no valid one. *)
Theorem formatDate_NaN_text (Date_parse : string -> Number) (date : string) :
  formatDate Date_parse date = "NaN/NaN/NaN, NaN:NaN:NaN AM"
  <-> Date_of_string Date_parse date = NaN.
Proof.
  split.
  - intros H. destruct (Date_of_string Date_parse date) as [t | ] eqn:Hd;
      [exfalso | reflexivity].
    rewrite (formatDate_of_time Date_parse date t Hd) in H.
    pose proof (MonthFromTime_range t) as Hm.
    revert H. apply month_not_NaN. lia.
  - apply formatDate_NaN.
Qed.

(** The fields of a time value but for the milliseconds, from the seconds
    since the epoch. *)
Lemma Day_of_seconds t : Day t = (t / 1000) / 86400.
Proof. unfold Day, msPerDay. rewrite Z.div_div by lia. reflexivity. Qed.

Lemma HourFromTime_of_seconds t : HourFromTime t = ((t / 1000) / 3600) mod 24.
Proof. unfold HourFromTime, msPerHour. rewrite Z.div_div by lia. reflexivity. Qed.

Lemma MinFromTime_of_seconds t : MinFromTime t = ((t / 1000) / 60) mod 60.
Proof. unfold MinFromTime, msPerMinute. rewrite Z.div_div by lia. reflexivity. Qed.

Lemma fields_of_seconds t t' :
  t / 1000 = t' / 1000 ->
  YearFromTime t = YearFromTime t' /\ MonthFromTime t = MonthFromTime t'
  /\ DateFromTime t = DateFromTime t' /\ HourFromTime t = HourFromTime t'
  /\ MinFromTime t = MinFromTime t' /\ SecFromTime t = SecFromTime t'.
Proof.
  intros E.
  assert (Day t = Day t') as ED by (rewrite !Day_of_seconds, E; reflexivity).
  assert (YearFromTime t = YearFromTime t') as EY
    by (unfold YearFromTime; rewrite ED; reflexivity).
  assert (DayWithinYear t = DayWithinYear t') as EW
    by (unfold DayWithinYear; rewrite ED, EY; reflexivity).
  assert (InLeapYear t = InLeapYear t') as EL
    by (unfold InLeapYear; rewrite EY; reflexivity).
  assert (MonthFromTime t = MonthFromTime t') as EM
    by (unfold MonthFromTime; rewrite EW, EL; reflexivity).
  repeat split; try assumption.
  - unfold DateFromTime. rewrite EM, EW, EL. reflexivity.
  - rewrite !HourFromTime_of_seconds, E. reflexivity.
  - rewrite !MinFromTime_of_seconds, E. reflexivity.
  - unfold SecFromTime, msPerSecond. rewrite E. reflexivity.
Qed.

(** X16.  [formatDate] does not show the milliseconds: two valid dates in
    the same second since the epoch are formatted alike. *)
Theorem formatDate_same_second
    (Date_parse : string -> Number) (date date' : string) (t t' : Z) :
  Date_of_string Date_parse date = Some t ->
  Date_of_string Date_parse date' = Some t' ->
  t / 1000 = t' / 1000 ->
  formatDate Date_parse date = formatDate Date_parse date'.
Proof.
  intros Hd Hd' E.
  rewrite (formatDate_of_time Date_parse date t Hd).
  rewrite (formatDate_of_time Date_parse date' t' Hd').
  destruct (fields_of_seconds t t' E) as (-> & -> & -> & -> & -> & ->).
  reflexivity.
Qed.

Lemma formatDate_same_second_witness :
  Date_of_string parseDateTimeString "2024-02-01T15:00:00.000Z"
  = Some 1706799600000
  /\ Date_of_string parseDateTimeString "2024-02-01T15:00:00.999Z"
     = Some 1706799600999
  /\ 1706799600000 / 1000 = 1706799600999 / 1000
  /\ formatDate parseDateTimeString "2024-02-01T15:00:00.000Z"
     = formatDate parseDateTimeString "2024-02-01T15:00:00.999Z".
Proof.
  split; [reflexivity | ]. split; [reflexivity | ]. split; [reflexivity | ].
  apply (formatDate_same_second parseDateTimeString
           "2024-02-01T15:00:00.000Z" "2024-02-01T15:00:00.999Z"
           1706799600000 1706799600999); reflexivity.
Defined.

(** ** The commented body of [getWorkSchedule] without work days *)

Lemma getWorkSchedule_commented_loop_no_work
    tza (end_ : Z) (countWorkDays countOffDays : Number) :
  Number_le (Some 1) countWorkDays = false ->
  forall (n : nat) (day : Z) (fuel : nat) (numberOffDays : Z),
    (forall d, day <= d <= end_ + 1 -> in_range (midnight tza d)) ->
    n = Z.to_nat (end_ - day + 1) ->
    (n < fuel)%nat ->
    getWorkSchedule_commented_loop tza fuel
      (Some (midnight tza day)) (Some (midnight tza end_))
      countWorkDays countOffDays 1 numberOffDays []
    = Some [].
Proof.
  intros HW.
  induction n as [ | n IH]; intros day fuel numberOffDays HR Hn Hfuel;
    (destruct fuel as [ | fuel]; [lia | ]);
    rewrite getWorkSchedule_commented_loop_step, midnight_le.
  { destruct (Z.leb_spec day end_); [lia | reflexivity]. }
  destruct (Z.leb_spec day end_); [ | lia].
  rewrite HW, setDate_next_day.
  rewrite TimeClip_in_range by (apply HR; lia).
  destruct (Number_le (Some numberOffDays) countOffDays);
    match goal with
    | |- context [if ?c then (1, 1) else _] => destruct c
    end; apply IH; try lia; intros d Hd; apply HR; lia.
Qed.

(** X18.  The commented body of [getWorkSchedule] checks none of its
    numbers: when [countWorkDays] is 0, negative or [NaN], it returns the
    empty array for every period of well-formed dates, whatever
    [countOffDays] is, and raises no error. *)
Theorem getWorkSchedule_commented_no_work_days
    (LocalTZA : Z) (period : DatePeriod) (d1 m1 y1 d2 m2 y2 : Z)
    (countWorkDays countOffDays : Number) (fuel : nat) :
  destructure3 (map Number_of_string (split_dash (period_start period)))
  = (Some d1, Some m1, Some y1) ->
  destructure3 (map Number_of_string (split_dash (period_end period)))
  = (Some d2, Some m2, Some y2) ->
  99 < y1 -> 99 < y2 ->
  Z.abs LocalTZA <= msPerDay ->
  -99999000 <= day_of d1 m1 y1 <= 99999000 ->
  -99999000 <= day_of d2 m2 y2 <= 99999000 ->
  Number_le (Some 1) countWorkDays = false ->
  (Z.to_nat (day_of d2 m2 y2 - day_of d1 m1 y1 + 1) < fuel)%nat ->
  getWorkSchedule_commented LocalTZA fuel period countWorkDays countOffDays
  = Some [].
Proof.
  intros E1 E2 Hy1 Hy2 Hz R1 R2 HW Hfuel.
  unfold getWorkSchedule_commented. rewrite E1, E2.
  unfold Date_of_fields. cbn [Number_sub].
  rewrite !MakeFullYear_four_digits by lia.
  change (MakeTime 0 0 0 0) with 0.
  fold (day_of d1 m1 y1). fold (day_of d2 m2 y2).
  fold (midnight LocalTZA (day_of d1 m1 y1)).
  fold (midnight LocalTZA (day_of d2 m2 y2)).
  rewrite !TimeClip_in_range by (apply in_range_midnight; lia).
  apply (getWorkSchedule_commented_loop_no_work LocalTZA (day_of d2 m2 y2)
           countWorkDays countOffDays HW
           (Z.to_nat (day_of d2 m2 y2 - day_of d1 m1 y1 + 1))).
  - intros d Hd. apply in_range_midnight; lia.
  - reflexivity.
  - exact Hfuel.
Qed.

Lemma getWorkSchedule_commented_no_work_days_witness :
  getWorkSchedule_commented 0 16 (mkDatePeriod "01-01-2024" "15-01-2024")
    (Some 0) (Some 3)
  = Some [].
Proof.
  apply (getWorkSchedule_commented_no_work_days
           0 (mkDatePeriod "01-01-2024" "15-01-2024") 1 1 2024 15 1 2024
           (Some 0) (Some 3) 16).
  - reflexivity.
  - reflexivity.
  - lia.
  - lia.
  - unfold msPerDay. lia.
  - cbv. split; discriminate.
  - cbv. split; discriminate.
  - reflexivity.
  - cbv. lia.
Defined.
